(** * Verification of the [intern] / [ndio] client SDKs

    A shallow embedding of
    - [intern/remote/remote.py]        (class [Remote]),
    - [intern/service/boss/project.py] (class [ProjectService]),
    - [ndio/remote/m2g.py]             (classes [Invariants], [InputFormats], [m2g]),
    with the properties of their request dispatch, argument validation and
    URL assembly.

    Python text is [string]; dictionaries are [gmap]s, or association lists
    where the iteration order is observable; sets are [gset]s.  A call that
    can raise returns a [result]; a call with effects threads the state it
    works on explicitly. *)

From Stdlib Require Import ZArith Ascii String.
From stdpp Require Import base option list strings pretty gmap.


(** ** Python values, exceptions and effects *)
Module Py.

(** The exception classes the modelled code raises or lets through. *)
Inductive exn_class :=
| ValueError | RuntimeError | KeyError | IOError | NameError
| AttributeError | TypeError | IndexError | NotImplementedError
| RemoteDataUploadError | MissingSectionHeaderError | ParsingError
| URLError.

Record exn := Exn { exn_cls : exn_class; exn_msg : string }.

Inductive result (A : Type) :=
| Return (a : A)
| Raise (e : exn).
Arguments Return {A} a.
Arguments Raise {A} e.

Global Instance exn_class_eq_dec : EqDecision exn_class.
Proof. solve_decision. Defined.

(** [raises c r]: the call ended by raising an exception of class [c]. *)
Definition raises {A} (c : exn_class) (r : result A) : Prop :=
  match r with
  | Raise e => exn_cls e = c
  | Return _ => False
  end.

(** Computations over a state [S] that may raise: the state reached when
    the exception is raised is kept, as in Python. *)
Definition M (S A : Type) : Type := S -> result A * S.

Definition ret {S A} (a : A) : M S A := fun s => (Return a, s).
Definition throw {S A} (c : exn_class) (msg : string) : M S A :=
  fun s => (Raise (Exn c msg), s).
Definition bind {S A B} (m : M S A) (k : A -> M S B) : M S B :=
  fun s => match m s with
           | (Return a, s') => k a s'
           | (Raise e, s') => (Raise e, s')
           end.
(** [try: m except: h] with a bare [except]. *)
Definition try_except {S A} (m : M S A) (h : exn -> M S A) : M S A :=
  fun s => match m s with
           | (Return a, s') => (Return a, s')
           | (Raise e, s') => h e s'
           end.
Definition modify {S} (f : S -> S) : M S unit := fun s => (Return tt, f s).
Definition lift {S A} (r : result A) : M S A := fun s => (r, s).

(** ** Text *)

(** [sep.join(l)]. *)
Fixpoint join (sep : string) (l : list string) : string :=
  match l with
  | [] => ""
  | [x] => x
  | x :: xs => x +:+ sep +:+ join sep xs
  end.

(** [needle in hay] on [str]. *)
Fixpoint str_in (needle hay : string) : bool :=
  String.prefix needle hay ||
  match hay with
  | EmptyString => false
  | String _ hay' => str_in needle hay'
  end.

(** [template.format] applied to positional arguments, for templates
    whose only replacement field is the automatically numbered [{}]; the
    arguments are the [str] forms of the values.  [None] when arguments
    are missing. *)
Fixpoint format (template : string) (args : list string) : option string :=
  match template with
  | EmptyString => Some ""
  | String "{" (String "}" rest) =>
      match args with
      | a :: args' => String.append a <$> format rest args'
      | [] => None
      end
  | String c rest => String c <$> format rest args
  end.

Definition nl : string := String "010" "".

(** The values a configuration dictionary holds, and their [str] form as
    [format] renders it. *)
Inductive pyval :=
| PyNone
| PyBool (b : bool)
| PyInt (z : Z)
| PyStr (s : string).

Definition str (v : pyval) : string :=
  match v with
  | PyNone => "None"
  | PyBool true => "True"
  | PyBool false => "False"
  | PyInt z => pretty z
  | PyStr s => s
  end.

(** [format] as a call: [IndexError] when arguments are missing. *)
Definition format_call (template : string) (args : list string)
    : result string :=
  match format template args with
  | Some s => Return s
  | None => Raise (Exn IndexError "tuple index out of range")
  end.

(** Truth value of an optional [str] argument: [None] and the empty text
    are false. *)
Definition truthy (o : option string) : bool :=
  match o with
  | Some s => negb (String.eqb s "")
  | None => false
  end.

End Py.

Notation "x <~ m ;; k" := (Py.bind m (fun x => k))
  (at level 100, m at next level, right associativity).
Notation "m ;;; k" := (Py.bind m (fun _ => k))
  (at level 100, right associativity).

(** ** The INI reader behind [Remote.load_config_file]

    [load_config_file] hands the text to [ConfigParser.readfp] of the Python
    standard library.  This is the reader of [RawConfigParser._read]: section
    headers, option lines with [=] or [:], comment and blank lines,
    continuation lines, and the joining of multi-line values. *)
Module ConfigParser.
Import Py.

Definition newline : ascii := "010"%char.
Definition DEFAULTSECT : string := "DEFAULT".

(** [fp.readline()] until the text is exhausted: every line keeps its
    terminating newline, the last one may lack it. *)
Fixpoint readlines (s : string) : list string :=
  match s with
  | EmptyString => []
  | String c s' =>
      if Ascii.eqb c newline then String c "" :: readlines s'
      else match readlines s' with
           | [] => [String c ""]
           | l :: ls => String c l :: ls
           end
  end.

Fixpoint lstrip (s : string) : string :=
  match s with
  | EmptyString => ""
  | String c s' => if Ascii.is_space c then lstrip s' else s
  end.

Fixpoint rstrip (s : string) : string :=
  match s with
  | EmptyString => ""
  | String c s' =>
      match rstrip s' with
      | EmptyString => if Ascii.is_space c then "" else String c ""
      | r => String c r
      end
  end.

Definition strip (s : string) : string := rstrip (lstrip s).

Definition lower_char (c : ascii) : ascii :=
  let n := nat_of_ascii c in
  if (65 <=? n)%nat && (n <=? 90)%nat then ascii_of_nat (n + 32) else c.

Fixpoint lower (s : string) : string :=
  match s with
  | EmptyString => ""
  | String c s' => String (lower_char c) (lower s')
  end.

(** [optionxform]: option names are compared in lower case. *)
Definition optionxform (s : string) : string := lower s.

Fixpoint take_until (p : ascii -> bool) (s : string) : string :=
  match s with
  | EmptyString => ""
  | String c s' => if p c then "" else String c (take_until p s')
  end.

(** [line.split(None, 1)[0]] on a line that is not blank. *)
Definition first_word (line : string) : string :=
  take_until Ascii.is_space (lstrip line).

Definition head_is (p : ascii -> bool) (s : string) : bool :=
  match s with
  | EmptyString => false
  | String c _ => p c
  end.

Definition is_delim (c : ascii) : bool :=
  Ascii.eqb c "=" || Ascii.eqb c ":".

(** The pattern SECTCRE matched at the start of the line: an opening
    bracket, a header of one or more characters other than the closing
    bracket, and the closing bracket. *)
Fixpoint until_bracket (s : string) : option string :=
  match s with
  | EmptyString => None
  | String c s' =>
      if Ascii.eqb c "]" then Some ""
      else String c <$> until_bracket s'
  end.

Definition match_section (line : string) : option string :=
  match line with
  | String "[" rest =>
      match until_bracket rest with
      | Some EmptyString => None
      | Some header => Some header
      | None => None
      end
  | _ => None
  end.

(** The pattern OPTCRE matched at the start of the line: an option that
    starts with neither a delimiter nor white space and runs up to the
    first delimiter, the delimiter, and the value, which is what follows
    up to the end of the line, leading white space apart. *)
Fixpoint split_delim (s : string) : option (string * ascii * string) :=
  match s with
  | EmptyString => None
  | String c s' =>
      if is_delim c then Some ("", c, s')
      else '(o, vi, v) ← split_delim s'; Some (String c o, vi, v)
  end.

Definition match_option (line : string) : option (string * ascii * string) :=
  if head_is (fun c => is_delim c || Ascii.is_space c) line then None
  else '(o, vi, rest) ← split_delim line;
       Some (o, vi, take_until (fun c => Ascii.eqb c newline) (lstrip rest)).

(** [optval.find(';')] and [optval[i]], with Python's indexing from the
    end for [-1]. *)
Fixpoint find_char (c : ascii) (s : string) : option nat :=
  match s with
  | EmptyString => None
  | String c' s' =>
      if Ascii.eqb c' c then Some 0%nat else S <$> find_char c s'
  end.

Definition char_before (s : string) (pos : nat) : option ascii :=
  match pos with
  | O => String.get (String.length s - 1) s
  | S p => String.get p s
  end.

Definition cut_inline_comment (optval : string) : string :=
  match find_char ";" optval with
  | Some pos =>
      match char_before optval pos with
      | Some c => if Ascii.is_space c then String.substring 0 pos optval
                  else optval
      | None => optval
      end
  | None => optval
  end.

(** The two-character text made of two double quotes, read as the empty
    value. *)
Definition empty_quotes : string := String "034" (String "034" "").

Definition option_value (optval : string) : string :=
  let v := strip (cut_inline_comment optval) in
  if String.eqb v empty_quotes then "" else v.

(** The dictionary the reader is filling: [cursect]. *)
Inductive cursor :=
| CurDefaults
| CurSection (name : string).

Record reader := {
  defaults : gmap string (list string);
  sections : gmap string (gmap string (list string));
  cursect : option cursor;
  optname : option string;
  errors : list string
}.

Definition empty_reader : reader :=
  {| defaults := ∅; sections := ∅; cursect := None; optname := None;
     errors := [] |}.

Definition cur_dict (r : reader) (c : cursor) : gmap string (list string) :=
  match c with
  | CurDefaults => defaults r
  | CurSection n => default ∅ (sections r !! n)
  end.

Definition set_cur_dict (r : reader) (c : cursor)
    (d : gmap string (list string)) : reader :=
  match c with
  | CurDefaults =>
      {| defaults := d; sections := sections r; cursect := cursect r;
         optname := optname r; errors := errors r |}
  | CurSection n =>
      {| defaults := defaults r; sections := <[n := d]> (sections r);
         cursect := cursect r; optname := optname r; errors := errors r |}
  end.

Definition with_optname (r : reader) (o : option string) : reader :=
  {| defaults := defaults r; sections := sections r; cursect := cursect r;
     optname := o; errors := errors r |}.

Definition is_comment_start (c : ascii) : bool :=
  Ascii.eqb c "#" || Ascii.eqb c ";".

Definition is_rem (line : string) : bool :=
  String.eqb (lower (first_word line)) "rem" &&
  head_is (fun c => Ascii.eqb c "r" || Ascii.eqb c "R") line.

Definition open_section (r : reader) (sectname : string) : reader :=
  if decide (is_Some (sections r !! sectname)) then
    {| defaults := defaults r; sections := sections r;
       cursect := Some (CurSection sectname); optname := None;
       errors := errors r |}
  else if String.eqb sectname DEFAULTSECT then
    {| defaults := defaults r; sections := sections r;
       cursect := Some CurDefaults; optname := None; errors := errors r |}
  else
    {| defaults := defaults r;
       sections := <[sectname := {["__name__" := [sectname]]}]> (sections r);
       cursect := Some (CurSection sectname); optname := None;
       errors := errors r |}.

Definition add_error (r : reader) (line : string) : reader :=
  {| defaults := defaults r; sections := sections r; cursect := cursect r;
     optname := optname r; errors := errors r ++ [line] |}.

(** A line that is neither skipped nor a continuation: a section header,
    or an option of the current section. *)
Definition read_header (r : reader) (line : string) : result reader :=
  match match_section line with
  | Some sectname => Return (open_section r sectname)
  | None =>
      match cursect r with
      | None => Raise (Exn MissingSectionHeaderError line)
      | Some c =>
          match match_option line with
          | Some (o, vi, optval) =>
              let name := optionxform (rstrip o) in
              Return (with_optname
                        (set_cur_dict r c
                           (<[name := [option_value optval]]> (cur_dict r c)))
                        (Some name))
          | None => Return (add_error r line)
          end
      end
  end.

(** One turn of the reading loop. *)
Definition read_line (r : reader) (line : string) : result reader :=
  if String.eqb (strip line) "" || head_is is_comment_start line then
    Return r
  else if is_rem line then Return r
  else
    match cursect r, optname r with
    | Some c, Some o =>
        if head_is Ascii.is_space line && negb (String.eqb o "") then
          Return (set_cur_dict r c
                    (<[o := default [] (cur_dict r c !! o) ++ [strip line]]>
                       (cur_dict r c)))
        else read_header r line
    | _, _ => read_header r line
    end.

Fixpoint read_lines (r : reader) (lines : list string) : result reader :=
  match lines with
  | [] => Return r
  | line :: rest =>
      match read_line r line with
      | Return r' => read_lines r' rest
      | Raise e => Raise e
      end
  end.

(** A loaded parser: the default values and the sections, multi-line
    values joined. *)
Record parser := {
  _defaults : gmap string string;
  _sections : gmap string (gmap string string)
}.

Definition join_values (d : gmap string (list string)) : gmap string string :=
  join (String newline "") <$> d.

(** [cfg_parser = ConfigParser(); cfg_parser.readfp(handle)] on a handle
    holding [text]. *)
Definition readfp (text : string) : result parser :=
  match read_lines empty_reader (readlines text) with
  | Raise e => Raise e
  | Return r =>
      match errors r with
      | [] => Return {| _defaults := join_values (defaults r);
                        _sections := join_values <$> sections r |}
      | _ :: _ => Raise (Exn ParsingError (join "" (errors r)))
      end
  end.

(** [cfg.get(section, option, raw=True)]: the section's own value, or
    the default one; [None] stands for [NoSectionError] and
    [NoOptionError]. *)
Definition get_raw (cfg : parser) (section opt : string) : option string :=
  match _sections cfg !! section with
  | Some d =>
      match d !! optionxform opt with
      | Some v => Some v
      | None => _defaults cfg !! optionxform opt
      end
  | None =>
      if String.eqb section DEFAULTSECT
      then _defaults cfg !! optionxform opt
      else None
  end.

End ConfigParser.

(** ** [intern]: the [Remote] base class and the project service *)
Module Intern.
Import Py.

Definition CONFIG_FILE : string := "~/.intern/intern.cfg".

(** [intern.resource.Resource]: only [valid_volume] is used here. *)
Class Resource (R : Type) := { valid_volume : R -> bool }.

(** What [Remote.__init__] reads from its surroundings: the expansion of
    the home directory in a path and the regular files with their text. *)
Record Env := {
  expanduser : string -> string;
  files : gmap string string
}.

(** The argument of the constructor: a dict of configuration parameters,
    in iteration order, or a path. *)
Inductive cfg_arg :=
| CfgDict (d : list (string * pyval))
| CfgPath (path : string).

Section Remote.
Context {R : Type} `{Resource R}.
(** [Store]: the state the service objects work on; [Value]: what they
    return; [Data]: what a cutout upload carries; [Service]: the service
    objects this class does not call. *)
Context {Store Value Data Service : Type}.

Record VolumeService := {
  vs_get_cutout :
    R -> Z -> list Z -> list Z -> list Z -> option (list Z) -> M Store Value;
  vs_create_cutout :
    R -> Z -> list Z -> list Z -> list Z -> Data -> option (list Z) ->
    M Store Value
}.

Record ListService := {
  ls_list : gmap string Value -> M Store Value
}.

(** The attributes of a [Remote]. *)
Record Remote := {
  _volume : option VolumeService;
  _metadata : option Service;
  _project : option ListService;
  _object : option Service;
  _config : option ConfigParser.parser;
  _token_project : option string;
  _token_metadata : option string;
  _token_volume : option string;
  _token_object : option string
}.

Definition blank : Remote :=
  {| _volume := None; _metadata := None; _project := None;
     _object := None; _config := None; _token_project := None;
     _token_metadata := None; _token_volume := None;
     _token_object := None |}.

Definition set_config (c : option ConfigParser.parser) (r : Remote)
    : Remote :=
  {| _volume := _volume r; _metadata := _metadata r;
     _project := _project r; _object := _object r; _config := c;
     _token_project := _token_project r;
     _token_metadata := _token_metadata r;
     _token_volume := _token_volume r;
     _token_object := _token_object r |}.

(** [Remote.load_config_file]. *)
Definition load_config_file (config_handle : string)
    : result ConfigParser.parser :=
  ConfigParser.readfp config_handle.

(** The INI text the constructor builds from a dict: the loop
    [cfg_str = "{}{} = {}\n".format(cfg_str, key, d[key])]. *)
Fixpoint cfg_str_loop (cfg_str : string) (d : list (string * pyval))
    : result string :=
  match d with
  | [] => Return cfg_str
  | (key, v) :: d' =>
      match format_call ("{}{} = {}" +:+ nl) [cfg_str; key; str v] with
      | Return cfg_str' => cfg_str_loop cfg_str' d'
      | Raise e => Raise e
      end
  end.

(** [Remote.__init__], on the attributes of the object under
    construction. *)
Definition init (env : Env) (cfg_file_or_dict : option cfg_arg)
    : M Remote unit :=
  modify (fun _ => blank) ;;;
  let cfg_file_or_dict :=
    match cfg_file_or_dict with
    | None => CfgPath (expanduser env CONFIG_FILE)
    | Some a => a
    end in
  match cfg_file_or_dict with
  | CfgDict d =>
      cfg_str <~ lift (cfg_str_loop ("[Default]" +:+ nl) d) ;;
      cfg <~ lift (load_config_file cfg_str) ;;
      modify (set_config (Some cfg))
  | CfgPath path =>
      match files env !! path with
      | Some text =>
          cfg <~ lift (load_config_file text) ;;
          modify (set_config (Some cfg))
      | None =>
          msg <~ lift (format_call "Configuration file not found: {}"
                         [path]) ;;
          throw IOError msg
      end
  end.

(** A call that reached a service object. *)
Inductive call :=
| CallGetCutout (resource : R) (resolution : Z)
    (x_range y_range z_range : list Z) (time_range : option (list Z))
| CallCreateCutout (resource : R) (resolution : Z)
    (x_range y_range z_range : list Z) (data : Data)
    (time_range : option (list Z))
| CallList (kwargs : gmap string Value).

(** The remote, the state of its services, and the calls made on them
    so far. *)
Record Heap := {
  self : Remote;
  store : Store;
  calls : list call
}.

Definition invoke {A} (c : call) (m : M Store A) : M Heap A :=
  fun h =>
    let '(r, st) := m (store h) in
    (r, {| self := self h; store := st; calls := calls h ++ [c] |}).

Definition no_attribute {A} (name : string) : M Heap A :=
  throw AttributeError
    ("'NoneType' object has no attribute '" +:+ name +:+ "'").

(** [Remote.list_project]. *)
Definition list_project (kwargs : gmap string Value) : M Heap Value :=
  fun h =>
    match _project (self h) with
    | Some p => invoke (CallList kwargs) (ls_list p kwargs) h
    | None => no_attribute "list" h
    end.

(** [Remote.get_cutout]. *)
Definition get_cutout (resource : R) (resolution : Z)
    (x_range y_range z_range : list Z) (time_range : option (list Z))
    : M Heap Value :=
  fun h =>
    if negb (valid_volume resource) then
      throw RuntimeError "Resource incompatible with the volume service." h
    else
      match _volume (self h) with
      | Some v =>
          invoke
            (CallGetCutout resource resolution x_range y_range z_range
               time_range)
            (vs_get_cutout v resource resolution x_range y_range z_range
               time_range) h
      | None => no_attribute "get_cutout" h
      end.

(** [Remote.create_cutout]. *)
Definition create_cutout (resource : R) (resolution : Z)
    (x_range y_range z_range : list Z) (data : Data)
    (time_range : option (list Z)) : M Heap Value :=
  fun h =>
    if negb (valid_volume resource) then
      throw RuntimeError "Resource incompatible with the volume service." h
    else
      match _volume (self h) with
      | Some v =>
          invoke
            (CallCreateCutout resource resolution x_range y_range z_range
               data time_range)
            (vs_create_cutout v resource resolution x_range y_range
               z_range data time_range) h
      | None => no_attribute "create_cutout" h
      end.

End Remote.
Arguments VolumeService : clear implicits.
Arguments ListService : clear implicits.
Arguments Remote : clear implicits.
Arguments Heap : clear implicits.
Arguments call : clear implicits.

End Intern.

(** ** [intern.service.boss.project]: routing to an API version *)
Module Boss.
Import Py.

Section ProjectService.
(** [R]: resources; [Store]: what the HTTP session works on; [Value]: what
    an implementation returns; [Auth], [Session], [SendOpts]: the
    attributes of [BossService] every call passes on. *)
Context {R Store Value Auth Session SendOpts : Type}.

(** The trailing arguments of every call on an implementation:
    [url_prefix, auth, session, send_opts]. *)
Definition rest (A : Type) : Type :=
  string -> Auth -> Session -> SendOpts -> M Store A.

(** The interface of a version-specific implementation such as
    [ProjectService_0_7]. *)
Record Impl := {
  impl_get_group : string -> option string -> rest Value;
  impl_create_group : string -> rest Value;
  impl_delete_group : string -> option string -> rest Value;
  impl_add_user_to_group : string -> string -> rest Value;
  impl_get_permissions : string -> R -> rest Value;
  impl_add_permissions : string -> R -> list string -> rest Value;
  impl_delete_permissions : string -> R -> list string -> rest Value;
  impl_add_user_role : string -> string -> rest Value;
  impl_delete_user_role : string -> string -> rest Value;
  impl_get_user_roles : string -> rest Value;
  impl_add_user :
    string -> option string -> option string -> option string ->
    option string -> rest Value;
  impl_get_user : string -> rest Value;
  impl_get_user_groups : string -> rest Value;
  impl_delete_user : string -> rest Value;
  impl_list : option R -> rest Value;
  impl_create : R -> rest Value;
  impl_get : R -> rest Value;
  impl_update : string -> R -> rest Value;
  impl_delete : R -> rest Value
}.

(** The attributes [BossService.__init__] sets up. *)
Record BossService := {
  url_prefix : string;
  auth : Auth;
  session : Session;
  session_send_opts : SendOpts
}.

Record ProjectService := {
  boss : BossService;
  base_url : string;
  _versions : gmap string Impl;
  service : Impl
}.

(** [BossService.__init__] and the implementation object
    [ProjectService_0_7()] come from modules outside this file. *)
Variable BossService_init : BossService.
Variable ProjectService_0_7 : Impl.

(** Modelled from the spec: [BossService.get_api_impl] is defined in
    [intern.service.boss], which is not among the sources.  The constructor
    documents [KeyError] for an invalid version and the spec describes
    routing to the version-specific implementation: the lookup
    [self._versions[version]]. *)
Definition get_api_impl (versions : gmap string Impl) (version : string)
    : result Impl :=
  match versions !! version with
  | Some impl => Return impl
  | None => Raise (Exn KeyError version)
  end.

(** [ProjectService.__init__]. *)
Definition init (base_url : string) (version : string)
    : result ProjectService :=
  let boss := BossService_init in
  let versions : gmap string Impl := {[ "v0.7" := ProjectService_0_7 ]} in
  match get_api_impl versions version with
  | Return impl =>
      Return {| boss := boss; base_url := base_url; _versions := versions;
                service := impl |}
  | Raise e => Raise e
  end.

(** [self.service.m(..., self.url_prefix, self.auth, self.session,
    self.session_send_opts)]. *)
Definition delegate {A} (ps : ProjectService) (m : Impl -> rest A)
    : M Store A :=
  m (service ps) (url_prefix (boss ps)) (auth (boss ps)) (session (boss ps))
    (session_send_opts (boss ps)).

(** A method without [return]: the result of the call is dropped and the
    caller gets [None]. *)
Definition drop {A} (m : M Store A) : M Store unit := m ;;; ret tt.

Definition get_group (ps : ProjectService) (name : string)
    (user_name : option string) : M Store Value :=
  delegate ps (fun s => impl_get_group s name user_name).

Definition create_group (ps : ProjectService) (name : string)
    : M Store unit :=
  drop (delegate ps (fun s => impl_create_group s name)).

Definition delete_group (ps : ProjectService) (name : string)
    (user_name : option string) : M Store unit :=
  drop (delegate ps (fun s => impl_delete_group s name user_name)).

Definition add_user_to_group (ps : ProjectService) (name user : string)
    : M Store Value :=
  delegate ps (fun s => impl_add_user_to_group s name user).

Definition get_permissions (ps : ProjectService) (grp_name : string)
    (resource : R) : M Store Value :=
  delegate ps (fun s => impl_get_permissions s grp_name resource).

Definition add_permissions (ps : ProjectService) (grp_name : string)
    (resource : R) (permissions : list string) : M Store unit :=
  drop (delegate ps
          (fun s => impl_add_permissions s grp_name resource permissions)).

Definition delete_permissions (ps : ProjectService) (grp_name : string)
    (resource : R) (permissions : list string) : M Store unit :=
  drop (delegate ps
          (fun s => impl_delete_permissions s grp_name resource permissions)).

Definition add_user_role (ps : ProjectService) (user role : string)
    : M Store unit :=
  drop (delegate ps (fun s => impl_add_user_role s user role)).

Definition delete_user_role (ps : ProjectService) (user role : string)
    : M Store unit :=
  drop (delegate ps (fun s => impl_delete_user_role s user role)).

Definition get_user_roles (ps : ProjectService) (user : string)
    : M Store Value :=
  delegate ps (fun s => impl_get_user_roles s user).

Definition add_user (ps : ProjectService) (user : string)
    (first_name last_name email password : option string) : M Store unit :=
  drop (delegate ps
          (fun s => impl_add_user s user first_name last_name email password)).

Definition get_user (ps : ProjectService) (user : string) : M Store Value :=
  delegate ps (fun s => impl_get_user s user).

Definition get_user_groups (ps : ProjectService) (user : string)
    : M Store Value :=
  delegate ps (fun s => impl_get_user_groups s user).

Definition delete_user (ps : ProjectService) (user : string)
    : M Store unit :=
  drop (delegate ps (fun s => impl_delete_user s user)).

(** [ProjectService.list(self, resource=None, **kwargs)]: the remaining
    keyword arguments are accepted and not passed on. *)
Definition list {K} (ps : ProjectService) (resource : option R) (kwargs : K)
    : M Store Value :=
  delegate ps (fun s => impl_list s resource).

Definition create (ps : ProjectService) (resource : R) : M Store Value :=
  delegate ps (fun s => impl_create s resource).

Definition get (ps : ProjectService) (resource : R) : M Store Value :=
  delegate ps (fun s => impl_get s resource).

Definition update (ps : ProjectService) (resource_name : string)
    (resource : R) : M Store Value :=
  delegate ps (fun s => impl_update s resource_name resource).

Definition delete (ps : ProjectService) (resource : R) : M Store unit :=
  drop (delegate ps (fun s => impl_delete s resource)).

End ProjectService.
Arguments Impl : clear implicits.
Arguments BossService : clear implicits.
Arguments ProjectService : clear implicits.

End Boss.

(** ** [ndio.remote.m2g]: the client of the graph services *)
Module Ndio.
Import Py.

Definition DEFAULT_HOSTNAME : string := "openconnecto.me".
Definition DEFAULT_PROTOCOL : string := "http".
Definition DEFAULT_EMAIL : string := "".

Module Invariants.
Definition SCAN_STATISTIC : string := "ss1".
Definition TRIANGLE_COUNT : string := "tri".
Definition CLUSTERING : string := "cc".
Definition MAX_AVG_DEGREE : string := "mad".
Definition LOCAL_DEGREE : string := "deg".
Definition EIGENS : string := "eig".

Definition ALL : list string :=
  [SCAN_STATISTIC; TRIANGLE_COUNT; CLUSTERING; MAX_AVG_DEGREE; LOCAL_DEGREE;
   EIGENS].
End Invariants.

Module InputFormats.
Definition GRAPHML : string := "graphml".
Definition NCOL : string := "ncol".
Definition EDGELIST : string := "edgelist".
Definition LGL : string := "lgl".
Definition PAJEK : string := "pajek".
Definition GRAPHDB : string := "graphdb".
Definition NUMPY : string := "numpy".
Definition MAT : string := "mat".

Definition _any : list string :=
  [GRAPHML; NCOL; EDGELIST; LGL; PAJEK; GRAPHDB; NUMPY; MAT].
End InputFormats.

(** The attributes of an [m2g] instance.  [email] is set by
    [m2g.__init__]; [hostname] and [protocol] are handed to the constructor
    of the base class [Remote] of ndio, which is defined outside this file
    and is taken to keep them under these names, where [__repr__] reads
    them. *)
Record m2g := {
  hostname : string;
  protocol : string;
  email : string
}.

Definition SMALL : string := "s".
Definition BIG : string := "b".

(** [m2g.__init__]. *)
Definition init (hostname protocol email : string) : m2g :=
  {| hostname := hostname; protocol := protocol; email := email |}.

(** [m2g.__repr__]. *)
Definition repr (self : m2g) : result string :=
  format_call "ndio.remote.m2g('{}', '{}', '{}')"
    [hostname self; protocol self; email self].

(** [m2g.set_default_email]. *)
Definition set_default_email (self : m2g) (new_email : string)
    : result m2g :=
  if negb (str_in "@" new_email) then Raise (Exn ValueError "Invalid email.")
  else Return {| hostname := hostname self; protocol := protocol self;
                 email := new_email |}.

(** A [callback] argument, of the documented type: an object that cannot be
    called, or a function with the argument names [inspect.getargspec]
    reports. *)
Inductive pyobject :=
| NonCallable
| Function (args : list string).

(** [hasattr(callback, '__call__')]. *)
Definition has_call (cb : pyobject) : bool :=
  match cb with
  | NonCallable => false
  | Function _ => true
  end.

(** [inspect.getargspec(callback).args]. *)
Definition getargspec_args (cb : pyobject) : list string :=
  match cb with
  | NonCallable => []
  | Function args => args
  end.

(** The archive under construction: the files written into it and whether
    it was closed. *)
Record zip := {
  members : list string;
  closed : bool
}.

Record response := { body : string }.

(** What a thread started by this class runs. *)
Inductive task :=
| TaskBuildGraph (url fiber_file : string) (atlas_file : option string)
    (callback : option pyobject)
| TaskComputeInvariants (url graph_file : string)
    (callback : option pyobject).

Inductive cbarg :=
| ArgResponse (r : response)
| ArgBody (s : string).

(** The effects of a call, in order. *)
Inductive event :=
| Zipped (name : string)
| Request (url : string) (payload : zip)
| ThreadStart (t : task)
| Called (cb : pyobject) (arg : cbarg).

(** The surroundings of an instance.  [Remote_url] is the [url] method of
    the base class and [DEFAULT_FIBER_FILE] the default of [fiber_file]:
    the two are used by this file and defined outside it.  [path_exists],
    [zippable] and [urlopen] are the file system and the network.
    [calling cb arg] is what the call [cb(arg)] of a function does: it
    returns ([None]), or it raises, be it because one positional argument
    does not fit its signature or from its body. *)
Record Env := {
  Remote_url : m2g -> string -> string;
  DEFAULT_FIBER_FILE : string;
  path_exists : string -> bool;
  zippable : string -> bool;
  urlopen : string -> zip -> option response;
  calling : pyobject -> cbarg -> option exn
}.

Section M2g.
Variable E : Env.
Variable self : m2g.

Definition eff (A : Type) : Type := M (list event) A.

Definition emit (e : event) : eff unit := modify (fun log => log ++ [e]).

(** [m2g.url]. *)
Definition url (suffix : string) : string :=
  Remote_url E self ("/graph-services/" +:+ suffix).

(** [set(xs) <= set(ys)]. *)
Definition subset (xs ys : list string) : bool :=
  bool_decide ((list_to_set xs : gset string) ⊆ list_to_set ys).

(** [x in ys] on a list. *)
Definition mem (x : string) (ys : list string) : bool :=
  bool_decide (x ∈ ys).

(** The check of [callback] that the three public calls share. *)
Definition check_callback (use_threads : bool) (callback : option pyobject)
    : eff unit :=
  match callback with
  | Some cb =>
      if use_threads then
        if negb (has_call cb) then
          throw ValueError "callback must be a function."
        else if negb (length (getargspec_args cb) =? 1)%nat then
          throw ValueError "callback must take exactly 1 argument."
        else ret tt
      else ret tt
  | None => ret tt
  end.

(** [zfile.write(name)]. *)
Definition zip_write (z : zip) (name : string) : eff zip :=
  if zippable E name then
    emit (Zipped name) ;;;
    ret {| members := members z ++ [name]; closed := closed z |}
  else throw IOError ("No such file or directory: '" +:+ name +:+ "'").

Definition zip_close (z : zip) : zip :=
  {| members := members z; closed := true |}.

Definition empty_zip : zip := {| members := []; closed := false |}.

(** [urllib2.urlopen(urllib2.Request(url, data))]. *)
Definition http_request (target : string) (payload : zip) : eff response :=
  emit (Request target payload) ;;;
  match urlopen E target payload with
  | Some r => ret r
  | None => throw URLError "urlopen error"
  end.

(** [callback(arg)]: an object that cannot be called raises [TypeError];
    a function is called, and returns or raises as [calling] says. *)
Definition call (cb : pyobject) (arg : cbarg) : eff unit :=
  match cb with
  | NonCallable => throw TypeError "object is not callable"
  | Function _ =>
      emit (Called cb arg) ;;;
      match calling E cb arg with
      | Some e => lift (Raise e)
      | None => ret tt
      end
  end.

(** An unbound name. *)
Definition name_error {A} (name : string) : eff A :=
  throw NameError ("global name '" +:+ name +:+ "' is not defined").

(** [m2g._run_build_graph].  The first statement after the archive is
    opened reads [file_file], a name bound neither in the function nor in
    the module. *)
Definition _run_build_graph (url_ fiber_file : string)
    (atlas_file : option string) (callback : option pyobject) : eff pyval :=
  tmpfile <~
    try_except
      (let zfile := empty_zip in
       zfile <~ (file_file <~ name_error "file_file" ;;
                 zip_write zfile file_file) ;;
       if truthy atlas_file then
         zfile <~ zip_write zfile (default "" atlas_file) ;;
         ret (zip_close zfile)
       else ret zfile)
      (fun _ =>
         throw ValueError
           ("Invalid atlas or fiber file. I don't have " +:+
            "any more information than that, sorry!")) ;;
  try_except
    (resp <~ http_request (url url_) tmpfile ;;
     match callback with
     | Some cb => call cb (ArgResponse resp) ;;; ret PyNone
     | None => ret (PyStr (body resp))
     end)
    (fun _ => throw RemoteDataUploadError ("Failed to upload data at " +:+ url_)).

(** [m2g._run_compute_invariants]. *)
Definition _run_compute_invariants (url_ graph_file : string)
    (callback : option pyobject) : eff pyval :=
  tmpfile <~
    try_except
      (zfile <~ zip_write empty_zip graph_file ;;
       ret (zip_close zfile))
      (fun _ => throw ValueError "Unable to zip graph file for upload.") ;;
  try_except
    (resp <~ http_request (url url_) tmpfile ;;
     match callback with
     | Some cb => call cb (ArgBody (body resp)) ;;; ret PyNone
     | None => ret (PyStr (body resp))
     end)
    (fun _ =>
       throw RemoteDataUploadError
         ("Failed to upload graph file. Try " +:+
          "troubleshooting with a ping()?")).

(** [threading.Thread(target=..., args=...).start()]. *)
Definition start_thread (t : task) : eff unit := emit (ThreadStart t).

(** What the started thread executes. *)
Definition run_task (t : task) : eff pyval :=
  match t with
  | TaskBuildGraph u fiber_file atlas_file callback =>
      _run_build_graph u fiber_file atlas_file callback
  | TaskComputeInvariants u graph_file callback =>
      _run_compute_invariants u graph_file callback
  end.

(** The text [build_graph] formats into [url]. *)
Definition build_graph_url (project site subject session scan size
    email_ : string) (invariants : list string) : result string :=
  format_call "buildgraph/{}/{}/{}/{}/{}/{}/{}/{}/"
    [project; site; subject; session; scan; size; email_;
     join "/" invariants].

(** [m2g.build_graph], every argument given; the defaults are
    [email self], [Invariants.ALL], [DEFAULT_FIBER_FILE E], [None],
    [False] and [None]. *)
Definition build_graph (project site subject session scan size
    email_ : string) (invariants : list string) (fiber_file : string)
    (atlas_file : option string) (use_threads : bool)
    (callback : option pyobject) : eff pyval :=
  if negb (subset invariants Invariants.ALL) then
    throw ValueError "Invariants must be a subset of Invariants.ALL."
  else
    check_callback use_threads callback ;;;
    if negb (mem size [BIG; SMALL]) then
      throw ValueError "size must be either m2g.BIG or m2g.SMALL."
    else
      url_ <~ lift (build_graph_url project site subject session scan size
                      email_ invariants) ;;
      if str_in " " url_ then
        throw ValueError "Arguments must not contain spaces."
      else if use_threads then
        start_thread (TaskBuildGraph url_ fiber_file atlas_file callback) ;;;
        ret PyNone
      else _run_build_graph url_ fiber_file atlas_file None.

(** [m2g.compute_invariants].  The first statement reads
    [GraphFormats._any], and [GraphFormats] is a name bound neither in the
    function nor in the module, which defines [InputFormats]; so is
    [fiber_file], which the foreground call passes. *)
Definition compute_invariants (graph_file input_format : string)
    (invariants : list string) (email_ : string) (use_threads : bool)
    (callback : option pyobject) : eff pyval :=
  GraphFormats_any <~ name_error "GraphFormats" ;;
  if negb (mem input_format GraphFormats_any) then
    msg <~ lift (format_call "Invalid input format, {}." [input_format]) ;;
    throw ValueError msg
  else if negb (subset invariants Invariants.ALL) then
    throw ValueError "Invariants must be a subset of Invariants.ALL."
  else
    check_callback use_threads callback ;;;
    url_ <~ lift (format_call "/graphupload/{}/{}/{}/"
                    [email_; input_format; join "/" invariants]) ;;
    if str_in " " url_ then
      throw ValueError "Arguments cannot have spaces in them."
    else if negb (path_exists E graph_file) then
      msg <~ lift (format_call "File {} does not exist." [graph_file]) ;;
      throw ValueError msg
    else if use_threads then
      start_thread (TaskComputeInvariants url_ graph_file callback) ;;;
      ret PyNone
    else
      fiber_file <~ name_error "fiber_file" ;;
      _run_compute_invariants url_ fiber_file None.

(** [str] of an optional text: [None] prints as its name. *)
Definition str_opt (o : option string) : string :=
  match o with
  | Some s => s
  | None => "None"
  end.

(** [m2g.convert_graph].  The first statement reads
    [GraphFormats._any], and [GraphFormats] is a name bound neither in the
    function nor in the module, which defines [InputFormats]; so is
    [result], whose [fileToConvert] the archive is to receive. *)
Definition convert_graph (graph_file input_format : string)
    (output_formats : list string) (email_ : option string)
    (use_threads : bool) (callback : option pyobject) : eff pyval :=
  GraphFormats_any <~ name_error "GraphFormats" ;;
  if negb (mem input_format GraphFormats_any) then
    msg <~ lift (format_call "Invalid input format {}." [input_format]) ;;
    throw ValueError msg
  else
    GraphFormats_any <~ name_error "GraphFormats" ;;
    if negb (subset output_formats GraphFormats_any) then
      throw ValueError "Output formats must be a GraphFormats."
    else
    check_callback use_threads callback ;;;
    if negb (path_exists E graph_file) then
      msg <~ lift (format_call "No such file, {}!" [graph_file]) ;;
      throw ValueError msg
    else
      let zfile := empty_zip in
      zfile <~ (fileToConvert <~ name_error "result" ;;
                zip_write zfile fileToConvert) ;;
      let zfile := zip_close zfile in
      url_ <~ lift (format_call "convert/{}/{}/{}/"
                      [str_opt email_; input_format;
                       join "," output_formats]) ;;
      if str_in " " url_ then
        throw ValueError "Spaces are not permitted in arguments."
      else throw NotImplementedError "".

End M2g.

(** *** Evaluating the text of [repr]

    [eval] on the texts [__repr__] is meant to produce: a call of
    [ndio.remote.m2g] on three string literals in single quotes.  A text of
    another form is not such a call: [None]. *)

Definition octal_digit (c : ascii) : option nat :=
  let n := nat_of_ascii c in
  if (48 <=? n)%nat && (n <=? 55)%nat then Some (n - 48)%nat else None.

Definition hex_digit (c : ascii) : option nat :=
  let n := nat_of_ascii c in
  if (48 <=? n)%nat && (n <=? 57)%nat then Some (n - 48)%nat
  else if (65 <=? n)%nat && (n <=? 70)%nat then Some (n - 55)%nat
  else if (97 <=? n)%nat && (n <=? 102)%nat then Some (n - 87)%nat
  else None.

(** The escapes of one character after the backslash. *)
Definition simple_escape (c : ascii) : option ascii :=
  match c with
  | "\"%char => Some "\"%char
  | "'"%char => Some "'"%char
  | "034"%char => Some "034"%char
  | "a"%char => Some "007"%char
  | "b"%char => Some "008"%char
  | "f"%char => Some "012"%char
  | "n"%char => Some "010"%char
  | "r"%char => Some "013"%char
  | "t"%char => Some "009"%char
  | "v"%char => Some "011"%char
  | _ => None
  end.

(** A character that cannot stand in a literal as it is: the end of a
    line, or the null character, which [eval] refuses. *)
Definition breaks_literal (c : ascii) : bool :=
  Ascii.eqb c "010" || Ascii.eqb c "013" || Ascii.eqb c "000".

(** The body of a literal in single quotes, after the opening quote: the
    text it denotes and what follows the closing quote. *)
Fixpoint literal_body (s : string) : option (string * string) :=
  match s with
  | EmptyString => None
  | String c s1 =>
      if Ascii.eqb c "'" then Some ("", s1)
      else if Ascii.eqb c "\" then
        match s1 with
        | EmptyString => None
        | String e s2 =>
            match simple_escape e with
            | Some d => '(v, r) ← literal_body s2; Some (String d v, r)
            | None =>
                if Ascii.eqb e "010" then literal_body s2
                else if Ascii.eqb e "x" then
                  match s2 with
                  | String h1 (String h2 s4) =>
                      match hex_digit h1, hex_digit h2 with
                      | Some a, Some b =>
                          '(v, r) ← literal_body s4;
                          Some (String (ascii_of_nat (16 * a + b)) v, r)
                      | _, _ => None
                      end
                  | _ => None
                  end
                else
                  match octal_digit e with
                  | Some a =>
                      match s2 with
                      | String o2 s3 =>
                          match octal_digit o2 with
                          | Some b =>
                              match s3 with
                              | String o3 s4 =>
                                  match octal_digit o3 with
                                  | Some c3 =>
                                      '(v, r) ← literal_body s4;
                                      Some (String
                                              (ascii_of_nat
                                                 (64 * a + 8 * b + c3)) v, r)
                                  | None =>
                                      '(v, r) ← literal_body s3;
                                      Some (String (ascii_of_nat (8 * a + b))
                                              v, r)
                                  end
                              | EmptyString => None
                              end
                          | None =>
                              '(v, r) ← literal_body s2;
                              Some (String (ascii_of_nat a) v, r)
                          end
                      | EmptyString => None
                      end
                  | None =>
                      '(v, r) ← literal_body s2;
                      Some (String "\" (String e v), r)
                  end
            end
        end
      else if breaks_literal c then None
      else '(v, r) ← literal_body s1; Some (String c v, r)
  end.

(** [expect p s]: [s] without its prefix [p]. *)
Fixpoint expect (p s : string) : option string :=
  match p, s with
  | EmptyString, _ => Some s
  | String a p', String b s' => if Ascii.eqb a b then expect p' s' else None
  | String _ _, EmptyString => None
  end.

Definition literal (s : string) : option (string * string) :=
  s ← expect "'" s; literal_body s.

(** [eval(text)] for the text of a call [ndio.remote.m2g('..', '..', '..')]. *)
Definition eval (text : string) : option m2g :=
  s ← expect "ndio.remote.m2g(" text;
  '(h, s) ← literal s;
  s ← expect ", " s;
  '(p, s) ← literal s;
  s ← expect ", " s;
  '(e, s) ← literal s;
  s ← expect ")" s;
  if String.eqb s "" then Some (init h p e) else None.

End Ndio.

(** * Properties *)

(** ** [Remote]: dispatch to the volume and project services *)
Module RemoteDispatch.
Import Py Intern.

Section Dispatch.
Context {R : Type} `{Resource R} {Store Value Data Service : Type}.

Abbreviation Heap := (Intern.Heap R Store Value Data Service).

(** The heap after a call [c] on a service took the store to [st]. *)
Definition after_call (h : Heap) (c : call R Value Data) (st : Store) : Heap :=
  {| self := self h; store := st; calls := calls h ++ [c] |}.

Definition incompatible : exn :=
  Exn RuntimeError "Resource incompatible with the volume service.".

Lemma invoke_spec {A} (h : Heap) (c : call R Value Data) (m : M Store A) :
  invoke c m h = (fst (m (store h)), after_call h c (snd (m (store h)))).
Proof. unfold invoke, after_call. destruct (m (store h)); reflexivity. Qed.

(** C1.  A resource whose [valid_volume()] is false makes [get_cutout] and
    [create_cutout] raise [RuntimeError]: no call reaches the volume
    service and the remote and the store are as before.  A resource whose
    [valid_volume()] is true makes each of them return exactly what the
    volume service's method of the same name returns on the same
    arguments, that call being the only one made. *)
Theorem cutout_dispatch (h : Heap) (resource : R) (resolution : Z)
    (x_range y_range z_range : list Z) (data : Data)
    (time_range : option (list Z)) :
  (valid_volume resource = false ->
     get_cutout resource resolution x_range y_range z_range time_range h
       = (Raise incompatible, h) /\
     create_cutout resource resolution x_range y_range z_range data
       time_range h
       = (Raise incompatible, h))
  /\
  (valid_volume resource = true ->
     forall v, _volume (self h) = Some v ->
     (let out := vs_get_cutout v resource resolution x_range y_range z_range
                   time_range (store h) in
      get_cutout resource resolution x_range y_range z_range time_range h
        = (fst out,
           after_call h
             (CallGetCutout resource resolution x_range y_range z_range
                time_range) (snd out))) /\
     (let out := vs_create_cutout v resource resolution x_range y_range
                   z_range data time_range (store h) in
      create_cutout resource resolution x_range y_range z_range data
        time_range h
        = (fst out,
           after_call h
             (CallCreateCutout resource resolution x_range y_range z_range
                data time_range) (snd out)))).
Proof.
  split.
  - intros Hinvalid. unfold get_cutout, create_cutout.
    rewrite Hinvalid. split; reflexivity.
  - intros Hvalid v Hv. unfold get_cutout, create_cutout.
    rewrite Hvalid, Hv. cbn [negb]. split; apply invoke_spec.
Qed.

(** C8.  [list_project] returns exactly what the project service's [list]
    returns on the same keyword arguments; that call is the only thing it
    does. *)
Theorem list_project_delegates (h : Heap) (kwargs : gmap string Value)
    (p : ListService Store Value) :
  _project (self h) = Some p ->
  let out := ls_list p kwargs (store h) in
  list_project kwargs h
    = (fst out, after_call h (CallList kwargs) (snd out)).
Proof.
  intros Hp. unfold list_project. rewrite Hp. apply invoke_spec.
Qed.

End Dispatch.

(** A remote over resources that are their own validity flag, with a
    volume service that counts its calls. *)
Definition flag_resource : Resource bool := {| valid_volume := fun b => b |}.

Definition counting_volume : VolumeService bool nat Z unit :=
  {| vs_get_cutout := fun _ res _ _ _ _ n => (Return (res + 1)%Z, S n);
     vs_create_cutout := fun _ _ _ _ _ _ _ n => (Return 0%Z, S n) |}.

Definition counting_project : ListService nat Z :=
  {| ls_list := fun kw n => (Return (Z.of_nat (size kw)), S n) |}.

Definition sample_heap : Intern.Heap bool nat Z unit unit :=
  {| self := {| _volume := Some counting_volume; _metadata := None;
                _project := Some counting_project; _object := None;
                _config := None; _token_project := None;
                _token_metadata := None; _token_volume := None;
                _token_object := None |};
     store := 0%nat;
     calls := [] |}.

Lemma cutout_dispatch_witness :
  @get_cutout bool flag_resource nat Z unit unit false 0 [0; 8]%Z [0; 8]%Z
    [0; 4]%Z None sample_heap
    = (Raise incompatible, sample_heap) /\
  fst (@get_cutout bool flag_resource nat Z unit unit true 2 [0; 8]%Z
         [0; 8]%Z [0; 4]%Z None sample_heap)
    = Return 3%Z.
Proof.
  split.
  - apply (proj1 (@cutout_dispatch bool flag_resource nat Z unit unit
                    sample_heap false 0%Z [0; 8]%Z [0; 8]%Z [0; 4]%Z tt
                    None)).
    reflexivity.
  - rewrite (proj1 (proj2 (@cutout_dispatch bool flag_resource nat Z unit
                             unit sample_heap true 2%Z [0; 8]%Z [0; 8]%Z
                             [0; 4]%Z tt None)
                      eq_refl counting_volume eq_refl)).
    reflexivity.
Defined.

Lemma list_project_delegates_witness :
  fst (@list_project bool nat Z unit unit {[ "resource" := 5%Z ]}
         sample_heap)
    = Return 1%Z.
Proof.
  rewrite (@list_project_delegates bool nat Z unit unit sample_heap
             {[ "resource" := 5%Z ]} counting_project eq_refl).
  reflexivity.
Defined.

End RemoteDispatch.

(** ** [ProjectService]: the choice of the API version *)
Module ProjectRouting.
Import Py.

Section Routing.
Context {R Store Value Auth Session SendOpts : Type}.
Variable BossService_init : Boss.BossService Auth Session SendOpts.
Variable ProjectService_0_7 : Boss.Impl R Store Value Auth Session SendOpts.

Abbreviation ProjectService :=
  (Boss.ProjectService R Store Value Auth Session SendOpts).
Abbreviation init := (Boss.init BossService_init ProjectService_0_7).

(** A call on an implementation completed with the four attributes of the
    service. *)
Definition with_attrs {A} (ps : ProjectService)
    (m : @Boss.rest Store Auth Session SendOpts A) : M Store A :=
  m (Boss.url_prefix (Boss.boss ps)) (Boss.auth (Boss.boss ps))
    (Boss.session (Boss.boss ps)) (Boss.session_send_opts (Boss.boss ps)).

Lemma versions_lookup (version : string) :
  ({[ "v0.7" := ProjectService_0_7 ]}
     : gmap string (Boss.Impl R Store Value Auth Session SendOpts))
    !! version
  = if decide (version = "v0.7") then Some ProjectService_0_7 else None.
Proof.
  destruct (decide (version = "v0.7")) as [-> | Hne].
  - apply lookup_singleton_eq.
  - apply lookup_singleton_ne. congruence.
Qed.

Lemma init_v0_7 (base_url : string) :
  init base_url "v0.7"
  = Return {| Boss.boss := BossService_init; Boss.base_url := base_url;
              Boss._versions := {[ "v0.7" := ProjectService_0_7 ]};
              Boss.service := ProjectService_0_7 |}.
Proof.
  unfold Boss.init, Boss.get_api_impl. rewrite versions_lookup.
  reflexivity.
Qed.

Lemma init_other (base_url version : string) :
  version <> "v0.7" ->
  init base_url version = Raise (Exn KeyError version).
Proof.
  intros Hne. unfold Boss.init, Boss.get_api_impl. rewrite versions_lookup.
  destruct (decide (version = "v0.7")); [contradiction | reflexivity].
Qed.

(** The call [m] made for its effect alone: it runs on the store, what it
    returns is replaced by [None], what it raises is raised. *)
Definition answers_none {A} (m : M Store A) : M Store unit :=
  fun st =>
    match m st with
    | (Return _, st') => (Return tt, st')
    | (Raise e, st') => (Raise e, st')
    end.

(** [drop] runs the call and answers [None] whatever it returned. *)
Lemma drop_spec {A} (m : M Store A) (st : Store) :
  Boss.drop m st
  = match m st with
    | (Return _, st') => (Return tt, st')
    | (Raise e, st') => (Raise e, st')
    end.
Proof. unfold Boss.drop, bind, ret. destruct (m st) as [[a | e] st']; reflexivity. Qed.

(** C2.  With the version ['v0.7'] the constructor takes
    [ProjectService_0_7] as [self.service]; with any other version it
    raises [KeyError]; and every public method of the service so built
    calls the method of the same name of that implementation, on its own
    arguments followed by [url_prefix], [auth], [session] and
    [session_send_opts]: a method with [return] gives what that call
    gives, a method without runs that call and answers [None]. *)
Theorem project_service_routing (base_url : string) :
  (exists ps, init base_url "v0.7" = Return ps /\
              Boss.service ps = ProjectService_0_7) /\
  (forall version, version <> "v0.7" ->
     raises KeyError (init base_url version)) /\
  (forall ps, init base_url "v0.7" = Return ps ->
     let impl := ProjectService_0_7 in
     (forall name user_name,
        Boss.get_group ps name user_name
        = with_attrs ps (Boss.impl_get_group impl name user_name)) /\
     (forall name,
        Boss.create_group ps name
        = answers_none (with_attrs ps (Boss.impl_create_group impl name))) /\
     (forall name user_name,
        Boss.delete_group ps name user_name
        = answers_none
            (with_attrs ps (Boss.impl_delete_group impl name user_name))) /\
     (forall name user,
        Boss.add_user_to_group ps name user
        = with_attrs ps (Boss.impl_add_user_to_group impl name user)) /\
     (forall grp_name resource,
        Boss.get_permissions ps grp_name resource
        = with_attrs ps (Boss.impl_get_permissions impl grp_name resource)) /\
     (forall grp_name resource permissions,
        Boss.add_permissions ps grp_name resource permissions
        = answers_none
            (with_attrs ps
               (Boss.impl_add_permissions impl grp_name resource
                  permissions))) /\
     (forall grp_name resource permissions,
        Boss.delete_permissions ps grp_name resource permissions
        = answers_none
            (with_attrs ps
               (Boss.impl_delete_permissions impl grp_name resource
                  permissions))) /\
     (forall user role,
        Boss.add_user_role ps user role
        = answers_none (with_attrs ps (Boss.impl_add_user_role impl user role))) /\
     (forall user role,
        Boss.delete_user_role ps user role
        = answers_none
            (with_attrs ps (Boss.impl_delete_user_role impl user role))) /\
     (forall user,
        Boss.get_user_roles ps user
        = with_attrs ps (Boss.impl_get_user_roles impl user)) /\
     (forall user first_name last_name email password,
        Boss.add_user ps user first_name last_name email password
        = answers_none
            (with_attrs ps
               (Boss.impl_add_user impl user first_name last_name email
                  password))) /\
     (forall user,
        Boss.get_user ps user
        = with_attrs ps (Boss.impl_get_user impl user)) /\
     (forall user,
        Boss.get_user_groups ps user
        = with_attrs ps (Boss.impl_get_user_groups impl user)) /\
     (forall user,
        Boss.delete_user ps user
        = answers_none (with_attrs ps (Boss.impl_delete_user impl user))) /\
     (forall resource (kwargs : gmap string Value),
        Boss.list ps resource kwargs
        = with_attrs ps (Boss.impl_list impl resource)) /\
     (forall resource,
        Boss.create ps resource
        = with_attrs ps (Boss.impl_create impl resource)) /\
     (forall resource,
        Boss.get ps resource
        = with_attrs ps (Boss.impl_get impl resource)) /\
     (forall resource_name resource,
        Boss.update ps resource_name resource
        = with_attrs ps (Boss.impl_update impl resource_name resource)) /\
     (forall resource,
        Boss.delete ps resource
        = answers_none (with_attrs ps (Boss.impl_delete impl resource)))).
Proof.
  split; [| split].
  - eexists. split; [apply init_v0_7 | reflexivity].
  - intros version Hne. rewrite (init_other _ _ Hne). reflexivity.
  - intros ps Hps. rewrite init_v0_7 in Hps.
    injection Hps as <-. cbv zeta.
    repeat split; intros; reflexivity.
Qed.

End Routing.

(** An implementation that answers with the name of the method called and
    the prefix it was given. *)
Definition echo (name : string) : @Boss.rest nat unit unit unit string :=
  fun prefix _ _ _ n => (Return (name +:+ "@" +:+ prefix), S n).

Definition echo_impl : Boss.Impl unit nat string unit unit unit :=
  {| Boss.impl_get_group := fun _ _ => echo "get_group";
     Boss.impl_create_group := fun _ => echo "create_group";
     Boss.impl_delete_group := fun _ _ => echo "delete_group";
     Boss.impl_add_user_to_group := fun _ _ => echo "add_user_to_group";
     Boss.impl_get_permissions := fun _ _ => echo "get_permissions";
     Boss.impl_add_permissions := fun _ _ _ => echo "add_permissions";
     Boss.impl_delete_permissions := fun _ _ _ => echo "delete_permissions";
     Boss.impl_add_user_role := fun _ _ => echo "add_user_role";
     Boss.impl_delete_user_role := fun _ _ => echo "delete_user_role";
     Boss.impl_get_user_roles := fun _ => echo "get_user_roles";
     Boss.impl_add_user := fun _ _ _ _ _ => echo "add_user";
     Boss.impl_get_user := fun _ => echo "get_user";
     Boss.impl_get_user_groups := fun _ => echo "get_user_groups";
     Boss.impl_delete_user := fun _ => echo "delete_user";
     Boss.impl_list := fun _ => echo "list";
     Boss.impl_create := fun _ => echo "create";
     Boss.impl_get := fun _ => echo "get";
     Boss.impl_update := fun _ _ => echo "update";
     Boss.impl_delete := fun _ => echo "delete" |}.

Definition sample_boss : Boss.BossService unit unit unit :=
  {| Boss.url_prefix := "https://api.boss.io"; Boss.auth := tt;
     Boss.session := tt; Boss.session_send_opts := tt |}.

Definition sample_service
    : Boss.ProjectService unit nat string unit unit unit :=
  {| Boss.boss := sample_boss; Boss.base_url := "api.boss.io";
     Boss._versions := {[ "v0.7" := echo_impl ]};
     Boss.service := echo_impl |}.

Lemma project_service_routing_witness :
  raises KeyError (Boss.init sample_boss echo_impl "api.boss.io" "v0.8") /\
  Boss.get_group sample_service "grp" None 0%nat
    = (Return "get_group@https://api.boss.io", 1%nat) /\
  Boss.create_group sample_service "grp" 0%nat = (Return tt, 1%nat) /\
  Boss.delete sample_service tt 4%nat = (Return tt, 5%nat).
Proof.
  destruct (project_service_routing sample_boss echo_impl "api.boss.io")
    as (_ & Hother & Hcalls).
  split; [apply (Hother "v0.8"); discriminate |].
  destruct (Hcalls sample_service (init_v0_7 sample_boss echo_impl _))
    as (Hget & Hcreate & _ & _ & _ & _ & _ & _ & _ & _ & _ & _ & _ & _ & _
        & _ & _ & _ & Hdelete).
  rewrite Hget, Hcreate, Hdelete. repeat split.
Defined.

End ProjectRouting.

(** ** Text and sets: the facts the validation rests on *)
Module TextFacts.
Import Py.

Lemma bind_return {S A B} (m : M S A) (k : A -> M S B) (s s' : S) (a : A) :
  m s = (Return a, s') -> bind m k s = k a s'.
Proof. intros Hm. unfold bind. rewrite Hm. reflexivity. Qed.

Lemma bind_raise {S A B} (m : M S A) (k : A -> M S B) (s s' : S) (e : exn) :
  m s = (Raise e, s') -> bind m k s = (Raise e, s').
Proof. intros Hm. unfold bind. rewrite Hm. reflexivity. Qed.

Lemma app_cons (c : ascii) (s t : string) :
  String c s +:+ t = String c (s +:+ t).
Proof. reflexivity. Qed.

Lemma app_nil_l (s : string) : "" +:+ s = s.
Proof. reflexivity. Qed.

Lemma app_nil_r (s : string) : s +:+ "" = s.
Proof. induction s as [|c s IH]; [reflexivity |]. rewrite app_cons, IH. reflexivity. Qed.

Lemma app_assoc (s t u : string) : (s +:+ t) +:+ u = s +:+ (t +:+ u).
Proof.
  induction s as [|c s IH]; [reflexivity |].
  rewrite !app_cons, IH. reflexivity.
Qed.

Lemma prefix_char (c : ascii) (s : string) :
  String.prefix (String c "") s = true <-> exists t, s = String c t.
Proof.
  destruct s as [|d s]; simpl.
  - split; [discriminate | intros [t Ht]; discriminate].
  - destruct (ascii_dec c d) as [-> | Hne].
    + destruct s; split; eauto.
    + split; [discriminate | intros [t Ht]; congruence].
Qed.

(** [c in s] for a text of one character: [c] occurs in [s]. *)
Lemma str_in_char (c : ascii) (s : string) :
  str_in (String c "") s = true <-> exists s1 s2, s = s1 +:+ String c s2.
Proof.
  induction s as [|d s IH].
  - simpl. split; [discriminate |]. intros ([|? ?] & s2 & Hs); discriminate.
  - cbn [str_in]. rewrite orb_true_iff, prefix_char, IH. split.
    + intros [[t Ht] | (s1 & s2 & ->)].
      * exists "", t. exact Ht.
      * exists (String d s1), s2. reflexivity.
    + intros ([|a s1] & s2 & Hs).
      * left. exists s2. exact Hs.
      * right. rewrite app_cons in Hs. injection Hs as -> ->. eauto.
Qed.

End TextFacts.

(** ** [m2g]: validation, URL assembly and dispatch *)
Module M2gProps.
Import Py Ndio TextFacts.

Lemma subset_spec (xs ys : list string) : subset xs ys = true <-> xs ⊆ ys.
Proof. unfold subset. rewrite bool_decide_eq_true. set_solver. Qed.

Lemma mem_spec (x : string) (ys : list string) : mem x ys = true <-> x ∈ ys.
Proof. unfold mem. apply bool_decide_eq_true. Qed.

(** *** The conditions of the specification *)

(** A function of exactly one argument. *)
Definition one_argument (cb : pyobject) : Prop := exists a, cb = Function [a].

(** A callback is given while threads are used, and it is not a function
    of exactly one argument. *)
Definition rejected_callback (use_threads : bool)
    (callback : option pyobject) : Prop :=
  use_threads = true /\ exists cb, callback = Some cb /\ ~ one_argument cb.

Definition has_space (s : string) : Prop :=
  exists s1 s2, s = s1 +:+ " " +:+ s2.

(** The URL as the specification words it: the segments separated by [/],
    with a final [/]. *)
Definition buildgraph_url (project site subject session scan size
    email_ : string) (invariants : list string) : string :=
  join "/" ["buildgraph"; project; site; subject; session; scan; size;
            email_; join "/" invariants] +:+ "/".

Definition build_graph_rejects (project site subject session scan size
    email_ : string) (invariants : list string) (use_threads : bool)
    (callback : option pyobject) : Prop :=
  ~ invariants ⊆ Invariants.ALL \/
  (size <> BIG /\ size <> SMALL) \/
  rejected_callback use_threads callback \/
  has_space
    (buildgraph_url project site subject session scan size email_
       invariants).

(** *** The checks as the code computes them *)

Definition callback_fails (use_threads : bool) (callback : option pyobject)
    : bool :=
  match callback with
  | Some cb =>
      use_threads &&
      negb (has_call cb && (length (getargspec_args cb) =? 1)%nat)
  | None => false
  end.

Lemma one_argument_spec (cb : pyobject) :
  has_call cb && (length (getargspec_args cb) =? 1)%nat = true
  <-> one_argument cb.
Proof.
  unfold one_argument. destruct cb as [|[|a [|b args]]]; simpl; split;
    try discriminate; try (intros [? ?]; discriminate); eauto.
Qed.

Lemma callback_fails_spec (use_threads : bool) (callback : option pyobject) :
  callback_fails use_threads callback = true
  <-> rejected_callback use_threads callback.
Proof.
  unfold callback_fails, rejected_callback. destruct callback as [cb|].
  - rewrite andb_true_iff, negb_true_iff, <- not_true_iff_false,
      one_argument_spec.
    split.
    + intros [-> Hcb]. eauto.
    + intros [-> (cb' & [= <-] & Hcb)]. auto.
  - split; [discriminate | intros [_ (cb & Hcb & _)]; discriminate].
Qed.

Section Checks.
Variable E : Env.
Variable self : m2g.

Lemma check_callback_spec (use_threads : bool) (callback : option pyobject)
    (log : list event) :
  (callback_fails use_threads callback = true /\
   exists msg,
     check_callback use_threads callback log = (Raise (Exn ValueError msg), log))
  \/
  (callback_fails use_threads callback = false /\
   check_callback use_threads callback log = (Return tt, log)).
Proof.
  unfold check_callback, callback_fails.
  destruct callback as [[|args]|]; destruct use_threads; simpl; eauto.
  destruct (length args =? 1)%nat; simpl; eauto.
Qed.

Lemma build_graph_url_spec (project site subject session scan size
    email_ : string) (invariants : list string) :
  build_graph_url project site subject session scan size email_ invariants
  = Return (buildgraph_url project site subject session scan size email_
              invariants).
Proof.
  unfold buildgraph_url. cbn [join]. rewrite !app_assoc. reflexivity.
Qed.

(** Whatever its arguments, [_run_build_graph] ends in the handler of its
    first [try]: the archive never receives a file and nothing is sent. *)
Lemma run_build_graph_raises (u fiber_file : string)
    (atlas_file : option string) (callback : option pyobject)
    (log : list event) :
  _run_build_graph E self u fiber_file atlas_file callback log
  = (Raise (Exn ValueError
              ("Invalid atlas or fiber file. I don't have " +:+
               "any more information than that, sorry!")), log).
Proof. reflexivity. Qed.

Definition rejects (project site subject session scan size
    email_ : string) (invariants : list string) (use_threads : bool)
    (callback : option pyobject) : bool :=
  negb (subset invariants Invariants.ALL) ||
  callback_fails use_threads callback ||
  negb (mem size [BIG; SMALL]) ||
  str_in " "
    (buildgraph_url project site subject session scan size email_
       invariants).

Lemma rejects_spec (project site subject session scan size
    email_ : string) (invariants : list string) (use_threads : bool)
    (callback : option pyobject) :
  rejects project site subject session scan size email_ invariants
    use_threads callback = true
  <-> build_graph_rejects project site subject session scan size email_
        invariants use_threads callback.
Proof.
  unfold rejects, build_graph_rejects.
  rewrite !orb_true_iff, !negb_true_iff, <- !not_true_iff_false,
    subset_spec, mem_spec, callback_fails_spec, str_in_char.
  assert (size ∈ [BIG; SMALL] <-> ~ (size <> BIG /\ size <> SMALL)) as Hsize.
  { rewrite !elem_of_cons, elem_of_nil.
    destruct (decide (size = BIG)), (decide (size = SMALL)); tauto. }
  unfold has_space.
  destruct (decide (size = BIG)), (decide (size = SMALL)); tauto.
Qed.

(** [build_graph] by cases: a rejected call raises [ValueError] and does
    nothing; an accepted one starts the thread or runs in the foreground,
    on the URL of the specification. *)
Lemma build_graph_cases (project site subject session scan size
    email_ : string) (invariants : list string) (fiber_file : string)
    (atlas_file : option string) (use_threads : bool)
    (callback : option pyobject) (log : list event) :
  let out := build_graph E self project site subject session scan size
               email_ invariants fiber_file atlas_file use_threads callback
               log in
  let u := buildgraph_url project site subject session scan size email_
             invariants in
  (rejects project site subject session scan size email_ invariants
     use_threads callback = true /\
   exists msg, out = (Raise (Exn ValueError msg), log))
  \/
  (rejects project site subject session scan size email_ invariants
     use_threads callback = false /\
   out = if use_threads
         then (Return PyNone,
               log ++ [ThreadStart
                         (TaskBuildGraph u fiber_file atlas_file callback)])
         else _run_build_graph E self u fiber_file atlas_file None log).
Proof.
  cbv zeta. unfold build_graph, rejects.
  destruct (subset invariants Invariants.ALL); cbn [negb orb]; [| left; eauto].
  destruct (check_callback_spec use_threads callback log)
    as [[-> [msg Hcb]] | [-> Hcb]]; cbn [orb].
  { left. rewrite (bind_raise _ _ _ _ _ Hcb). eauto. }
  rewrite (bind_return _ _ _ _ _ Hcb).
  destruct (mem size [BIG; SMALL]); cbn [negb orb]; [| left; eauto].
  rewrite build_graph_url_spec.
  erewrite bind_return by reflexivity.
  destruct (str_in " " _); [left; eauto | right].
  split; [reflexivity |]. destruct use_threads; reflexivity.
Qed.

End Checks.

(** *** Sample surroundings *)

(** A machine without the files and without a network. *)
Definition offline : Env :=
  {| Remote_url := fun x suffix =>
       protocol x +:+ "://" +:+ hostname x +:+ suffix;
     DEFAULT_FIBER_FILE := "fibers.dat";
     path_exists := fun _ => false;
     zippable := fun _ => false;
     urlopen := fun _ _ => None;
     calling := fun _ _ => None |}.

(** A machine on which every file named exists and can be archived, a
    server that answers every request, and callbacks that return. *)
Definition online : Env :=
  {| Remote_url := fun x suffix =>
       protocol x +:+ "://" +:+ hostname x +:+ suffix;
     DEFAULT_FIBER_FILE := "fibers.dat";
     path_exists := fun _ => true;
     zippable := fun _ => true;
     urlopen := fun _ _ => Some {| body := "done" |};
     calling := fun _ _ => None |}.

Definition sample : m2g :=
  init DEFAULT_HOSTNAME DEFAULT_PROTOCOL "user@example.org".

(** *** [build_graph] *)

(** C4, as stated, fails: in the foreground a call that passes every check
    still raises [ValueError], from [_run_build_graph], here on a machine
    that has no fiber file. *)
Lemma build_graph_value_error_counterexample :
  ~ (raises ValueError
       (fst (build_graph offline sample "proj" "site" "subj" "sess" "scan"
               BIG "user@example.org" Invariants.ALL "fibers.dat" None false
               None []))
     <-> build_graph_rejects "proj" "site" "subj" "sess" "scan" BIG
           "user@example.org" Invariants.ALL false None).
Proof.
  intros [Hraises _].
  assert (rejects "proj" "site" "subj" "sess" "scan" BIG "user@example.org"
            Invariants.ALL false None = false) as Hacc by (vm_compute; reflexivity).
  apply not_true_iff_false in Hacc. apply Hacc, rejects_spec, Hraises.
  reflexivity.
Qed.

(** C4, amended.  [build_graph] raises [ValueError], and attempts no
    upload and starts no thread, whenever the invariants are not a subset
    of [Invariants.ALL], or the size is neither [BIG] nor [SMALL], or a
    callback given with threads is not a function of exactly one argument,
    or the URL contains a space.  Conversely a [ValueError] comes from one
    of these four, or from the foreground run of [_run_build_graph]. *)
Theorem build_graph_value_error (E : Env) (self : m2g)
    (project site subject session scan size email_ : string)
    (invariants : list string) (fiber_file : string)
    (atlas_file : option string) (use_threads : bool)
    (callback : option pyobject) (log : list event) :
  let out := build_graph E self project site subject session scan size
               email_ invariants fiber_file atlas_file use_threads callback
               log in
  let rejected := build_graph_rejects project site subject session scan
                    size email_ invariants use_threads callback in
  (rejected -> raises ValueError (fst out) /\ snd out = log) /\
  (raises ValueError (fst out) <->
   rejected \/
   (use_threads = false /\
    raises ValueError
      (fst (_run_build_graph E self
              (buildgraph_url project site subject session scan size email_
                 invariants)
              fiber_file atlas_file None log)))).
Proof.
  cbv zeta.
  destruct (build_graph_cases E self project site subject session scan size
              email_ invariants fiber_file atlas_file use_threads callback
              log) as [[Hrej [msg ->]] | [Hacc ->]].
  - apply rejects_spec in Hrej. repeat split; auto.
  - assert (~ build_graph_rejects project site subject session scan size
                email_ invariants use_threads callback) as Hnot.
    { rewrite <- rejects_spec, Hacc. discriminate. }
    split; [tauto |]. destruct use_threads; cbn [fst raises].
    + split; [tauto |]. intros [? | [? _]]; [tauto | discriminate].
    + tauto.
Qed.

Lemma build_graph_value_error_witness :
  raises ValueError
    (fst (build_graph online sample "proj" "site" "subj" "sess" "scan"
            "medium" "user@example.org" Invariants.ALL "fibers.dat" None
            false None [])) /\
  snd (build_graph online sample "proj" "site" "subj" "sess" "scan"
         "medium" "user@example.org" Invariants.ALL "fibers.dat" None false
         None []) = [].
Proof.
  apply (proj1 (build_graph_value_error online sample "proj" "site" "subj"
                  "sess" "scan" "medium" "user@example.org" Invariants.ALL
                  "fibers.dat" None false None [])).
  right. left. split; discriminate.
Defined.

(** C5, at a call the code can receive: every check passes, the files
    exist and the server answers.  The URL is assembled as the claim says,
    from the segments [buildgraph], project, site, subject, session, scan,
    size, email and the invariants, and it is what the started thread
    carries; but no request is ever made on it, neither by the call in the
    foreground nor by the run of the thread, so there is no request URL
    and [m2g.url] is never applied to it. *)
Theorem build_graph_sends_no_request :
  let u :=
    "buildgraph/proj/site/subj/sess/scan/s/user@example.org/ss1/tri/cc/mad/deg/eig/" in
  let t := TaskBuildGraph u "fibers.dat" (Some "atlas.nii") None in
  build_graph_url "proj" "site" "subj" "sess" "scan" SMALL
    "user@example.org" Invariants.ALL = Return u /\
  (forall target payload,
     Request target payload ∉
       snd (build_graph online sample "proj" "site" "subj" "sess" "scan"
              SMALL "user@example.org" Invariants.ALL "fibers.dat"
              (Some "atlas.nii") false None [])) /\
  build_graph online sample "proj" "site" "subj" "sess" "scan" SMALL
    "user@example.org" Invariants.ALL "fibers.dat" (Some "atlas.nii") true
    None []
  = (Return PyNone, [ThreadStart t]) /\
  (forall target payload,
     Request target payload ∉ snd (run_task online sample t [])).
Proof.
  cbv zeta. split; [vm_compute; reflexivity |].
  split; [intros target payload Hin; vm_compute in Hin;
          apply elem_of_nil in Hin; exact Hin |].
  split; [vm_compute; reflexivity |].
  intros target payload Hin. vm_compute in Hin.
  apply elem_of_nil in Hin. exact Hin.
Qed.

(** C6, at a call the code can receive: every check passes, the files
    exist and the server answers, and in the foreground [build_graph]
    raises [ValueError] where the HTTP response is due.  With threads it
    returns [None] and starts the thread, whose run ends the same way
    without a request and without calling the callback. *)
Theorem build_graph_foreground_raises :
  build_graph online sample "proj" "site" "subj" "sess" "scan" SMALL
    "user@example.org" Invariants.ALL "fibers.dat" (Some "atlas.nii") false
    None []
  = (Raise (Exn ValueError
              "Invalid atlas or fiber file. I don't have any more information than that, sorry!"),
     []) /\
  (let t := TaskBuildGraph
              "buildgraph/proj/site/subj/sess/scan/s/user@example.org/ss1/tri/cc/mad/deg/eig/"
              "fibers.dat" (Some "atlas.nii")
              (Some (Function ["response"])) in
   build_graph online sample "proj" "site" "subj" "sess" "scan" SMALL
     "user@example.org" Invariants.ALL "fibers.dat" (Some "atlas.nii") true
     (Some (Function ["response"])) []
   = (Return PyNone, [ThreadStart t]) /\
   run_task online sample t [ThreadStart t]
   = (Raise (Exn ValueError
               "Invalid atlas or fiber file. I don't have any more information than that, sorry!"),
      [ThreadStart t])).
Proof. vm_compute. repeat split. Qed.


(** *** [compute_invariants] *)

(** Whatever its arguments, [compute_invariants] stops at its first
    statement, on the unbound name [GraphFormats]: no check is made,
    nothing is archived or sent and no thread is started. *)
Lemma compute_invariants_raises (E : Env) (self : m2g)
    (graph_file input_format : string) (invariants : list string)
    (email_ : string) (use_threads : bool) (callback : option pyobject)
    (log : list event) :
  compute_invariants E self graph_file input_format invariants email_
    use_threads callback log
  = (Raise (Exn NameError "global name 'GraphFormats' is not defined"), log).
Proof. reflexivity. Qed.

(** C7, at a call the code can receive: the input format is not a graph
    format, the invariants are not among [Invariants.ALL] and the graph
    file does not exist, and [compute_invariants] raises [NameError]
    where [ValueError] is due: its first statement reads
    [GraphFormats._any], and the module binds [InputFormats], never
    [GraphFormats]. *)
Theorem compute_invariants_name_error :
  compute_invariants offline sample "missing.graphml" "bogus" ["zz"]
    "user@example.org" false None []
  = (Raise (Exn NameError "global name 'GraphFormats' is not defined"), []).
Proof. vm_compute. reflexivity. Qed.

(** *** [convert_graph] *)

(** [convert_graph] never returns and never sends a request: it raises
    [ValueError] from a check, or [NameError] on an unbound name. *)
Lemma convert_graph_never_returns (E : Env) (graph_file input_format : string)
    (output_formats : list string) (email_ : option string)
    (use_threads : bool) (callback : option pyobject) (log : list event) :
  exists e,
    convert_graph E graph_file input_format output_formats email_
      use_threads callback log = (Raise e, log) /\
    (exn_cls e = ValueError \/ exn_cls e = NameError).
Proof. eexists. split; [reflexivity | right; reflexivity]. Qed.

(** C10, at a call the code can receive: the formats are those of the
    module and the file exists, and [convert_graph] raises [NameError], at
    its first statement on the unbound name [GraphFormats] (and, were that
    name bound, on the unbound name [result] where the archive is to be
    filled); the [NotImplementedError] that closes the function is not
    reached. *)
Theorem convert_graph_name_error :
  convert_graph online "brain.graphml" "graphml" ["ncol"] None false None []
  = (Raise (Exn NameError "global name 'GraphFormats' is not defined"), []).
Proof. vm_compute. reflexivity. Qed.

(** *** [__repr__] and [eval] *)

(** A character that stands for itself in a literal in single quotes. *)
Definition plain_char (c : ascii) : bool :=
  negb (Ascii.eqb c "'" || Ascii.eqb c "\" || breaks_literal c).

Fixpoint plain (s : string) : bool :=
  match s with
  | EmptyString => true
  | String c s' => plain_char c && plain s'
  end.

Lemma literal_body_plain (v rest : string) :
  plain v = true ->
  literal_body (v +:+ String "'" rest) = Some (v, rest).
Proof.
  induction v as [|c v IH]; intros Hv.
  - reflexivity.
  - cbn [plain] in Hv. apply andb_true_iff in Hv as [Hc Hv].
    unfold plain_char in Hc. rewrite negb_true_iff, !orb_false_iff in Hc.
    destruct Hc as [[Hq Hb] Hbr].
    rewrite app_cons. cbn [literal_body]. rewrite Hq, Hb, Hbr, (IH Hv).
    reflexivity.
Qed.

Lemma literal_plain (v rest : string) :
  plain v = true ->
  literal (String "'" (v +:+ String "'" rest)) = Some (v, rest).
Proof. intros Hv. unfold literal. cbn. apply literal_body_plain, Hv. Qed.

(** Where the fields hold neither a quote, a backslash, an end of line nor
    a null character, [eval(repr(x))] gives [x] back. *)
Lemma repr_eval_plain (x : m2g) :
  plain (hostname x) = true -> plain (protocol x) = true ->
  plain (email x) = true ->
  exists text, repr x = Return text /\ eval text = Some x.
Proof.
  intros Hh Hp He. destruct x as [h p e]. cbn [hostname protocol email] in *.
  exists ("ndio.remote.m2g(" +:+
          String "'" (h +:+ String "'" (", " +:+
          String "'" (p +:+ String "'" (", " +:+
          String "'" (e +:+ String "'" ")")))))).
  split; [reflexivity |].
  unfold eval.
  change (expect "ndio.remote.m2g(" ("ndio.remote.m2g(" +:+ ?s))
    with (Some s).
  cbn [mbind option_bind]. rewrite (literal_plain h _ Hh).
  cbn [mbind option_bind].
  change (expect ", " (", " +:+ ?s)) with (Some s).
  cbn [mbind option_bind]. rewrite (literal_plain p _ Hp).
  cbn [mbind option_bind].
  change (expect ", " (", " +:+ ?s)) with (Some s).
  cbn [mbind option_bind]. rewrite (literal_plain e _ He).
  reflexivity.
Qed.

(** C9, at an instance the code can build: an address with an apostrophe
    passes [set_default_email], and the text [__repr__] gives for the
    instance is not a call that [eval] can evaluate, so no instance comes
    back. *)
Theorem repr_eval_apostrophe :
  let x := {| hostname := DEFAULT_HOSTNAME; protocol := DEFAULT_PROTOCOL;
              email := "o'brien@example.org" |} in
  set_default_email (init DEFAULT_HOSTNAME DEFAULT_PROTOCOL DEFAULT_EMAIL)
    "o'brien@example.org" = Return x /\
  repr x
    = Return "ndio.remote.m2g('openconnecto.me', 'http', 'o'brien@example.org')" /\
  eval "ndio.remote.m2g('openconnecto.me', 'http', 'o'brien@example.org')"
    = None.
Proof. vm_compute. repeat split. Qed.

End M2gProps.

(** ** The INI reader on the text [Remote.__init__] builds from a dict *)
Module ConfigFacts.
Import Py ConfigParser TextFacts.

Fixpoint all_chars (p : ascii -> bool) (s : string) : bool :=
  match s with
  | EmptyString => true
  | String c s' => p c && all_chars p s'
  end.

Definition not_space (c : ascii) : bool := negb (Ascii.is_space c).
Definition not_delim (c : ascii) : bool := negb (is_delim c).
Definition not_newline (c : ascii) : bool := negb (Ascii.eqb c newline).

(** A key that the reader takes as an option name of its own: not empty,
    free of white space and of the delimiters, not opening a comment or a
    section header, and not the word [rem]. *)
Definition clean_key (k : string) : bool :=
  negb (String.eqb k "") &&
  all_chars (fun c => not_space c && not_delim c) k &&
  negb (head_is (fun c => is_comment_start c || Ascii.eqb c "[") k) &&
  negb (String.eqb (lower k) "rem").

(** A value that the reader takes as it is: on one line, and unchanged by
    [option_value] (no white space at either end, no inline comment, not
    the two quotes that stand for the empty value). *)
Definition clean_value (v : string) : bool :=
  all_chars not_newline v && String.eqb (option_value v) v.

(** The lines the constructor writes after the header. *)
Fixpoint ini_lines (d : list (string * pyval)) : string :=
  match d with
  | [] => ""
  | (key, v) :: d' => (key +:+ " = " +:+ str v +:+ nl) +:+ ini_lines d'
  end.

(** The options of a section after the lines of [d] were read into [m]. *)
Definition read_into (m : gmap string (list string))
    (d : list (string * pyval)) : gmap string (list string) :=
  fold_left (fun m '(key, v) => <[lower key := [str v]]> m) d m.

(** The reader inside the section [Default]. *)
Definition in_default (m : gmap string (list string)) (o : option string)
    : reader :=
  {| defaults := ∅; sections := {[ "Default" := m ]};
     cursect := Some (CurSection "Default"); optname := o; errors := [] |}.

Lemma all_chars_app (p : ascii -> bool) (s t : string) :
  all_chars p (s +:+ t) = all_chars p s && all_chars p t.
Proof.
  induction s as [|c s IH]; [reflexivity |].
  rewrite app_cons. cbn [all_chars]. rewrite IH, andb_assoc. reflexivity.
Qed.

Lemma all_chars_impl (p q : ascii -> bool) (s : string) :
  (forall c, p c = true -> q c = true) ->
  all_chars p s = true -> all_chars q s = true.
Proof.
  intros Hpq. induction s as [|c s IH]; [reflexivity |].
  cbn [all_chars]. rewrite !andb_true_iff. intros [Hc Hs]. auto.
Qed.

Lemma not_space_not_newline (c : ascii) :
  not_space c = true -> not_newline c = true.
Proof.
  unfold not_space, not_newline, newline.
  destruct (Ascii.eqb_spec c "010") as [-> | _]; [discriminate | reflexivity].
Qed.

(** *** Lines *)

Lemma cfg_str_loop_spec (s : string) (d : list (string * pyval)) :
  Intern.cfg_str_loop s d = Return (s +:+ ini_lines d).
Proof.
  revert s. induction d as [|[key v] d IH]; intros s.
  - cbn [Intern.cfg_str_loop ini_lines]. rewrite app_nil_r. reflexivity.
  - cbn [Intern.cfg_str_loop ini_lines].
    change (format_call ("{}{} = {}" +:+ nl) [s; key; str v])
      with (Return (s +:+ key +:+ " = " +:+ str v +:+ nl)).
    cbv beta iota. rewrite IH, !app_assoc. reflexivity.
Qed.

Lemma readlines_line (l rest : string) :
  all_chars not_newline l = true ->
  readlines (l +:+ nl +:+ rest) = (l +:+ nl) :: readlines rest.
Proof.
  induction l as [|c l IH]; intros Hl.
  - reflexivity.
  - cbn [all_chars] in Hl. apply andb_true_iff in Hl as [Hc Hl].
    rewrite !app_cons. cbn [readlines].
    unfold not_newline in Hc. apply negb_true_iff in Hc. rewrite Hc.
    rewrite (IH Hl). reflexivity.
Qed.

(** *** The pieces of a line *)

Lemma lstrip_head (s : string) : head_is Ascii.is_space (lstrip s) = false.
Proof.
  induction s as [|c s IH]; [reflexivity |].
  cbn [lstrip]. destruct (Ascii.is_space c) eqn:Hc; [exact IH | exact Hc].
Qed.

Lemma rstrip_head (p : ascii -> bool) (s : string) :
  head_is p s = false -> head_is p (rstrip s) = false.
Proof.
  destruct s as [|c s]; [reflexivity |]. cbn [head_is rstrip]. intros Hc.
  destruct (rstrip s); [destruct (Ascii.is_space c) |]; auto.
Qed.

Lemma strip_head (s : string) : head_is Ascii.is_space (strip s) = false.
Proof. apply rstrip_head, lstrip_head. Qed.

Lemma lstrip_id (s : string) :
  head_is Ascii.is_space s = false -> lstrip s = s.
Proof. destruct s as [|c s]; [reflexivity |]. cbn. intros ->. reflexivity. Qed.

Lemma rstrip_nonempty (c : ascii) (s : string) :
  Ascii.is_space c = false -> rstrip (String c s) <> "".
Proof.
  intros Hc. cbn [rstrip]. rewrite Hc. destruct (rstrip s); discriminate.
Qed.

Lemma rstrip_app_space (s : string) :
  all_chars not_space s = true -> rstrip (s +:+ " ") = s.
Proof.
  induction s as [|c s IH]; intros Hs; [reflexivity |].
  cbn [all_chars] in Hs. apply andb_true_iff in Hs as [Hc Hs].
  apply negb_true_iff in Hc.
  rewrite app_cons. cbn [rstrip]. rewrite (IH Hs), Hc.
  destruct s; reflexivity.
Qed.

Lemma take_until_app (p : ascii -> bool) (s : string) (c : ascii)
    (rest : string) :
  all_chars (fun x => negb (p x)) s = true -> p c = true ->
  take_until p (s +:+ String c rest) = s.
Proof.
  intros Hs Hc. induction s as [|x s IH].
  - rewrite app_nil_l. cbn [take_until]. rewrite Hc. reflexivity.
  - cbn [all_chars] in Hs. apply andb_true_iff in Hs as [Hx Hs].
    apply negb_true_iff in Hx.
    rewrite app_cons. cbn [take_until]. rewrite Hx, (IH Hs). reflexivity.
Qed.

Lemma split_delim_app (s : string) (c : ascii) (rest : string) :
  all_chars not_delim s = true -> is_delim c = true ->
  split_delim (s +:+ String c rest) = Some (s, c, rest).
Proof.
  intros Hs Hc. induction s as [|x s IH].
  - rewrite app_nil_l. cbn [split_delim]. rewrite Hc. reflexivity.
  - cbn [all_chars] in Hs. apply andb_true_iff in Hs as [Hx Hs].
    apply negb_true_iff in Hx.
    rewrite app_cons. cbn [split_delim]. rewrite Hx, (IH Hs). reflexivity.
Qed.

Lemma match_section_head (c : ascii) (s : string) :
  Ascii.eqb c "[" = false -> match_section (String c s) = None.
Proof.
  destruct c as [[] [] [] [] [] [] [] []]; intros Hc;
    try reflexivity; discriminate Hc.
Qed.

(** The value of an option line [... = v] is [v]. *)
Lemma line_value (v : string) :
  clean_value v = true ->
  take_until (fun c => Ascii.eqb c newline) (lstrip (" " +:+ v +:+ nl)) = v.
Proof.
  unfold clean_value. rewrite andb_true_iff, String.eqb_eq.
  intros [Hnl Hv].
  change (lstrip (" " +:+ v +:+ nl)) with (lstrip (v +:+ nl)).
  destruct v as [|c v]; [reflexivity |].
  assert (head_is Ascii.is_space (String c v) = false) as Hhead.
  { rewrite <- Hv. unfold option_value.
    destruct (String.eqb _ empty_quotes); [reflexivity | apply strip_head]. }
  rewrite lstrip_id by exact Hhead.
  apply take_until_app; [| reflexivity].
  revert Hnl. apply all_chars_impl. intros x Hx. exact Hx.
Qed.

(** A value made of characters other than white space and the
    semicolon, and other than the two quotes, is clean. *)
Lemma rstrip_id (s : string) : all_chars not_space s = true -> rstrip s = s.
Proof.
  induction s as [|c s IH]; intros Hs; [reflexivity |].
  cbn [all_chars] in Hs. apply andb_true_iff in Hs as [Hc Hs].
  apply negb_true_iff in Hc. cbn [rstrip]. rewrite (IH Hs), Hc.
  destruct s; reflexivity.
Qed.

Lemma find_char_none (c : ascii) (s : string) :
  all_chars (fun x => negb (Ascii.eqb x c)) s = true -> find_char c s = None.
Proof.
  induction s as [|x s IH]; intros Hs; [reflexivity |].
  cbn [all_chars] in Hs. apply andb_true_iff in Hs as [Hx Hs].
  apply negb_true_iff in Hx. cbn [find_char]. rewrite Hx, (IH Hs).
  reflexivity.
Qed.

Lemma token_clean_value (v : string) :
  all_chars (fun c => not_space c && negb (Ascii.eqb c ";")) v = true ->
  v <> empty_quotes ->
  clean_value v = true.
Proof.
  intros Hv Hq.
  assert (all_chars not_space v = true) as Hsp.
  { revert Hv. apply all_chars_impl. intros x Hx.
    apply andb_true_iff in Hx. tauto. }
  assert (all_chars (fun x => negb (Ascii.eqb x ";")) v = true) as Hsemi.
  { revert Hv. apply all_chars_impl. intros x Hx.
    apply andb_true_iff in Hx. tauto. }
  unfold clean_value. apply andb_true_iff. split.
  - revert Hsp. apply all_chars_impl, not_space_not_newline.
  - apply String.eqb_eq. unfold option_value, cut_inline_comment, strip.
    rewrite (find_char_none _ _ Hsemi).
    assert (lstrip v = v) as ->.
    { destruct v as [|c v]; [reflexivity |]. apply lstrip_id.
      cbn [all_chars] in Hsp. apply andb_true_iff in Hsp as [Hc _].
      apply negb_true_iff in Hc. exact Hc. }
    rewrite (rstrip_id v Hsp).
    apply String.eqb_neq in Hq. rewrite Hq. reflexivity.
Qed.

(** *** One option line *)

Lemma cur_dict_in_default (m : gmap string (list string)) (o : option string) :
  cur_dict (in_default m o) (CurSection "Default") = m.
Proof. unfold cur_dict, in_default. cbn [sections]. rewrite lookup_singleton_eq. reflexivity. Qed.

Lemma set_in_default (m m' : gmap string (list string))
    (o o' : option string) :
  with_optname (set_cur_dict (in_default m o) (CurSection "Default") m') o'
  = in_default m' o'.
Proof.
  unfold with_optname, set_cur_dict, in_default.
  cbn [defaults sections cursect optname errors].
  rewrite insert_singleton_eq. reflexivity.
Qed.

(** What [clean_key] says of a key, character by character. *)
Lemma clean_key_inv (k : string) :
  clean_key k = true ->
  exists c k',
    k = String c k' /\
    Ascii.is_space c = false /\ is_delim c = false /\
    is_comment_start c = false /\ Ascii.eqb c "[" = false /\
    all_chars not_space k = true /\ all_chars not_delim k = true /\
    String.eqb (lower k) "rem" = false.
Proof.
  unfold clean_key. rewrite !andb_true_iff, !negb_true_iff.
  intros [[[Hne Hchars] Hhead] Hrem].
  destruct k as [|c k']; [discriminate |]. exists c, k'.
  cbn [head_is] in Hhead. apply orb_false_iff in Hhead as [Hcomment Hbracket].
  assert (all_chars not_space (String c k') = true) as Hsp.
  { revert Hchars. apply all_chars_impl. intros x Hx.
    apply andb_true_iff in Hx. tauto. }
  assert (all_chars not_delim (String c k') = true) as Hdl.
  { revert Hchars. apply all_chars_impl. intros x Hx.
    apply andb_true_iff in Hx. tauto. }
  pose proof Hsp as Hc1. pose proof Hdl as Hc2.
  cbn [all_chars] in Hc1, Hc2.
  apply andb_true_iff in Hc1 as [Hc1 _]. apply andb_true_iff in Hc2 as [Hc2 _].
  apply negb_true_iff in Hc1, Hc2.
  repeat split; assumption.
Qed.

(** The reader, inside [Default], takes the line [k = v] of a clean key
    and a clean value as the option [lower k] with the value [v]. *)
Lemma read_line_option (m : gmap string (list string)) (o : option string)
    (k v : string) :
  clean_key k = true -> clean_value v = true ->
  read_line (in_default m o) (k +:+ " = " +:+ v +:+ nl)
  = Return (in_default (<[lower k := [v]]> m) (Some (lower k))).
Proof.
  intros Hk Hv.
  destruct (clean_key_inv k Hk)
    as (c & k' & -> & Hsp & Hdl & Hcm & Hbr & Hksp & Hkdl & Hrem).
  set (key := String c k') in *.
  set (line := key +:+ " = " +:+ v +:+ nl).
  assert (line = String c (k' +:+ " = " +:+ v +:+ nl)) as Hline by reflexivity.
  assert (String.eqb (strip line) "" = false) as Hblank.
  { apply String.eqb_neq. unfold strip. rewrite Hline.
    rewrite lstrip_id by exact Hsp. apply rstrip_nonempty, Hsp. }
  assert (head_is is_comment_start line = false) as Hcomment
    by (rewrite Hline; exact Hcm).
  assert (is_rem line = false) as Hnorem.
  { unfold is_rem, first_word.
    rewrite (lstrip_id line) by (rewrite Hline; exact Hsp).
    change line with (key +:+ String " " ("= " +:+ v +:+ nl)).
    rewrite take_until_app; [| exact Hksp | reflexivity].
    rewrite Hrem. reflexivity. }
  assert (head_is Ascii.is_space line = false) as Hnocont
    by (rewrite Hline; exact Hsp).
  assert (match_option line = Some (key +:+ " ", "="%char, v)) as Hopt.
  { unfold match_option.
    assert (head_is (fun x => is_delim x || Ascii.is_space x) line = false)
      as -> by (rewrite Hline; cbn [head_is]; rewrite Hdl, Hsp; reflexivity).
    assert (line = (key +:+ " ") +:+ String "=" (" " +:+ v +:+ nl)) as ->
      by (unfold line; rewrite app_assoc; reflexivity).
    rewrite split_delim_app; [| | reflexivity].
    - cbn [mbind option_bind]. rewrite (line_value v Hv). reflexivity.
    - rewrite all_chars_app, Hkdl. reflexivity. }
  assert (read_header (in_default m o) line
          = Return (in_default (<[lower key := [v]]> m) (Some (lower key))))
    as Hheader.
  { unfold read_header.
    rewrite Hline, (match_section_head _ _ Hbr), <- Hline.
    cbn [cursect in_default]. rewrite Hopt.
    unfold optionxform. rewrite (rstrip_app_space key Hksp).
    unfold clean_value in Hv. apply andb_true_iff in Hv as [_ Hv].
    apply String.eqb_eq in Hv. rewrite Hv.
    fold (in_default m o). rewrite cur_dict_in_default, set_in_default.
    reflexivity. }
  unfold read_line. rewrite Hblank, Hcomment, Hnorem. cbn [orb].
  cbn [cursect optname in_default]. fold (in_default m o).
  destruct o as [o|]; [| exact Hheader].
  rewrite Hnocont. cbn [andb]. exact Hheader.
Qed.

(** *** All the lines *)

Definition option_line (kv : string * pyval) : string :=
  kv.1 +:+ " = " +:+ str kv.2 +:+ nl.

(** Every entry of [d] has a clean key and a value with a clean [str]
    form. *)
Definition clean_dict (d : list (string * pyval)) : Prop :=
  forall k v, (k, v) ∈ d -> clean_key k = true /\ clean_value (str v) = true.

Lemma clean_dict_cons (k : string) (v : pyval) (d : list (string * pyval)) :
  clean_dict ((k, v) :: d) ->
  clean_key k = true /\ clean_value (str v) = true /\ clean_dict d.
Proof.
  intros Hd.
  assert ((k, v) ∈ (k, v) :: d) as Hhead by left.
  destruct (Hd k v Hhead) as [Hk Hv].
  split; [exact Hk | split; [exact Hv |]].
  intros k' v' Hin. apply Hd. right. exact Hin.
Qed.

Lemma readlines_ini_lines (d : list (string * pyval)) :
  clean_dict d -> readlines (ini_lines d) = option_line <$> d.
Proof.
  induction d as [|[k v] d IH]; intros Hd; [reflexivity |].
  apply clean_dict_cons in Hd as (Hk & Hv & Hd).
  cbn [ini_lines fmap list_fmap]. unfold option_line at 1. cbn [fst snd].
  rewrite <- (IH Hd).
  replace ((k +:+ " = " +:+ str v +:+ nl) +:+ ini_lines d)
    with ((k +:+ " = " +:+ str v) +:+ nl +:+ ini_lines d)
    by (rewrite !app_assoc; reflexivity).
  rewrite readlines_line; [rewrite !app_assoc; reflexivity |].
  destruct (clean_key_inv k Hk) as (_ & _ & _ & _ & _ & _ & _ & Hsp & _ & _).
  unfold clean_value in Hv. apply andb_true_iff in Hv as [Hv _].
  rewrite !all_chars_app, Hv, andb_true_r.
  rewrite (all_chars_impl _ _ _ not_space_not_newline Hsp). reflexivity.
Qed.

Lemma read_lines_options (d : list (string * pyval))
    (m : gmap string (list string)) (o : option string) :
  clean_dict d ->
  exists o',
    read_lines (in_default m o) (option_line <$> d)
    = Return (in_default (read_into m d) o').
Proof.
  revert m o. induction d as [|[k v] d IH]; intros m o Hd.
  - exists o. reflexivity.
  - apply clean_dict_cons in Hd as (Hk & Hv & Hd).
    cbn [fmap list_fmap read_lines]. unfold option_line at 1. cbn [fst snd].
    rewrite (read_line_option m o k (str v) Hk Hv).
    apply (IH _ _ Hd).
Qed.

Lemma read_header_line :
  read_line empty_reader ("[Default]" +:+ nl)
  = Return (in_default {[ "__name__" := ["Default"] ]} None).
Proof. vm_compute. reflexivity. Qed.

(** The parser [readfp] returns on the text built from a clean dict. *)
Lemma readfp_dict (d : list (string * pyval)) :
  clean_dict d ->
  readfp (("[Default]" +:+ nl) +:+ ini_lines d)
  = Return {| _defaults := ∅;
              _sections :=
                {[ "Default" :=
                     join_values
                       (read_into {[ "__name__" := ["Default"] ]} d) ]} |}.
Proof.
  intros Hd. unfold readfp.
  replace (("[Default]" +:+ nl) +:+ ini_lines d)
    with ("[Default]" +:+ nl +:+ ini_lines d)
    by (rewrite app_assoc; reflexivity).
  rewrite readlines_line by reflexivity.
  rewrite (readlines_ini_lines d Hd).
  cbn [read_lines]. rewrite read_header_line.
  destruct (read_lines_options d {[ "__name__" := ["Default"] ]} None Hd)
    as [o' ->].
  cbn [errors in_default defaults sections].
  unfold join_values at 1. rewrite fmap_empty, map_fmap_singleton.
  reflexivity.
Qed.

(** *** Looking the keys up *)

Lemma read_into_other (d : list (string * pyval))
    (m : gmap string (list string)) (name : string) :
  name ∉ lower <$> d.*1 -> read_into m d !! name = m !! name.
Proof.
  revert m. induction d as [|[k v] d IH]; intros m Hname; [reflexivity |].
  cbn [fmap list_fmap fst] in Hname. apply not_elem_of_cons in Hname as [Hne Hname].
  unfold read_into. cbn [fold_left]. fold (read_into (<[lower k := [str v]]> m) d).
  rewrite (IH _ Hname). apply lookup_insert_ne. congruence.
Qed.

Lemma read_into_lookup (d : list (string * pyval))
    (m : gmap string (list string)) (k : string) (v : pyval) :
  NoDup (lower <$> d.*1) -> (k, v) ∈ d ->
  read_into m d !! lower k = Some [str v].
Proof.
  revert m. induction d as [|[k0 v0] d IH]; intros m Hnodup Hin.
  - apply elem_of_nil in Hin. contradiction.
  - cbn [fmap list_fmap fst] in Hnodup. apply NoDup_cons in Hnodup as [Hfresh Hnodup].
    unfold read_into. cbn [fold_left].
    fold (read_into (<[lower k0 := [str v0]]> m) d).
    apply elem_of_cons in Hin as [[= -> ->] | Hin].
    + rewrite (read_into_other _ _ _ Hfresh). apply lookup_insert_eq.
    + apply (IH _ Hnodup Hin).
Qed.

Lemma get_raw_dict (d : list (string * pyval)) (k : string) (v : pyval) :
  NoDup (lower <$> d.*1) -> (k, v) ∈ d ->
  get_raw {| _defaults := ∅;
             _sections :=
               {[ "Default" :=
                    join_values
                      (read_into {[ "__name__" := ["Default"] ]} d) ]} |}
    "Default" k
  = Some (str v).
Proof.
  intros Hnodup Hin. unfold get_raw. cbn [_sections _defaults].
  rewrite lookup_singleton_eq. unfold join_values, optionxform.
  rewrite lookup_fmap, (read_into_lookup _ _ _ _ Hnodup Hin).
  reflexivity.
Qed.

End ConfigFacts.

(** ** [Remote.__init__]: loading the configuration *)
Module RemoteConfig.
Import Py ConfigParser Intern TextFacts ConfigFacts.

Section Init.
Context {R Store Value Data Service : Type}.

Abbreviation Remote := (Intern.Remote R Store Value Data Service).

Lemma init_dict (env : Env) (r0 : Remote) (d : list (string * pyval)) :
  init env (Some (CfgDict d)) r0
  = match readfp (("[Default]" +:+ nl) +:+ ConfigFacts.ini_lines d) with
    | Return cfg => (Return tt, set_config (Some cfg) blank)
    | Raise e => (Raise e, blank)
    end.
Proof.
  unfold init. erewrite bind_return by reflexivity.
  unfold lift at 1. rewrite cfg_str_loop_spec.
  erewrite bind_return by reflexivity.
  unfold load_config_file, bind, lift.
  destruct (readfp _); reflexivity.
Qed.

Lemma init_path (env : Env) (r0 : Remote) (path : string) :
  init env (Some (CfgPath path)) r0
  = match files env !! path with
    | Some text =>
        match readfp text with
        | Return cfg => (Return tt, set_config (Some cfg) blank)
        | Raise e => (Raise e, blank)
        end
    | None =>
        (Raise (Exn IOError ("Configuration file not found: " +:+ path)),
         blank)
    end.
Proof.
  unfold init. erewrite bind_return by reflexivity.
  destruct (files env !! path) as [text|].
  - unfold load_config_file, bind, lift. destruct (readfp text); reflexivity.
  - erewrite bind_return by reflexivity. unfold throw.
    rewrite app_nil_r. reflexivity.
Qed.

(** C3, amended.  Given a dict whose keys are clean and distinct in lower
    case and whose values have a clean [str] form, the constructor leaves
    in [_config] a parser whose section [Default] maps every key to the
    [str] form of its value.  Given the path of an existing file it leaves
    there what the reader makes of the text of the file, or raises what
    the reader raises.  Given a path that names no file it raises
    [IOError] and [_config] stays [None].  Without an argument it takes
    the path of [CONFIG_FILE] in the home directory. *)
Theorem remote_init_config (env : Env) (r0 : Remote) :
  (forall d,
     clean_dict d -> NoDup (lower <$> d.*1) ->
     exists cfg,
       init env (Some (CfgDict d)) r0
         = (Return tt, set_config (Some cfg) blank) /\
       forall k v, (k, v) ∈ d -> get_raw cfg "Default" k = Some (str v)) /\
  (forall path text,
     files env !! path = Some text ->
     init env (Some (CfgPath path)) r0
       = match readfp text with
         | Return cfg => (Return tt, set_config (Some cfg) blank)
         | Raise e => (Raise e, blank)
         end) /\
  (forall path,
     files env !! path = None ->
     exists e r,
       init env (Some (CfgPath path)) r0 = (Raise e, r) /\
       exn_cls e = IOError /\ _config r = None) /\
  init env None r0 = init env (Some (CfgPath (expanduser env CONFIG_FILE))) r0.
Proof.
  repeat split.
  - intros d Hclean Hnodup. rewrite init_dict, (readfp_dict d Hclean).
    eexists. split; [reflexivity |].
    intros k v Hin. apply (get_raw_dict d k v Hnodup Hin).
  - intros path text Hfile. rewrite init_path, Hfile. reflexivity.
  - intros path Hfile. rewrite init_path, Hfile.
    eexists _, _. repeat split; reflexivity.
Qed.

End Init.

(** A machine with one configuration file. *)
Definition sample_env : Env :=
  {| expanduser := fun p => "/home/user" +:+ String.substring 1 (String.length p) p;
     files := {[ "/home/user/.intern/intern.cfg" :=
                   "[Default]" +:+ nl +:+ "host = api.boss.io" +:+ nl ]} |}.

(** C3, as stated, fails: a key with a delimiter in it is split by the
    reader, and the section [Default] does not map the key to its
    value. *)
Lemma remote_init_dict_counterexample :
  exists cfg,
    @init unit unit unit unit unit sample_env
      (Some (CfgDict [("host:port", PyStr "api.boss.io:443")])) blank
      = (Return tt, set_config (Some cfg) blank) /\
    get_raw cfg "Default" "host:port" = None /\
    get_raw cfg "Default" "host" = Some "port = api.boss.io:443".
Proof.
  eexists. split; [vm_compute; reflexivity |].
  split; vm_compute; reflexivity.
Qed.

Definition sample_dict : list (string * pyval) :=
  [("protocol", PyStr "https"); ("host", PyStr "api.boss.io");
   ("Port", PyInt 443)].

Lemma sample_dict_clean : clean_dict sample_dict.
Proof.
  intros k v Hin. unfold sample_dict in Hin.
  repeat (apply elem_of_cons in Hin as [[= -> ->] | Hin];
          [split; vm_compute; reflexivity |]).
  apply elem_of_nil in Hin. contradiction.
Defined.

Lemma sample_dict_nodup : NoDup (lower <$> sample_dict.*1).
Proof. apply (bool_decide_unpack _). vm_compute. exact I. Defined.

Lemma remote_init_config_witness :
  exists cfg,
    @init unit unit unit unit unit sample_env (Some (CfgDict sample_dict))
      blank
      = (Return tt, set_config (Some cfg) blank) /\
    get_raw cfg "Default" "Port" = Some "443".
Proof.
  destruct (proj1 (@remote_init_config unit unit unit unit unit sample_env
                     blank) sample_dict sample_dict_clean sample_dict_nodup)
    as (cfg & Hinit & Hget).
  exists cfg. split; [exact Hinit |].
  apply (Hget "Port" (PyInt 443)). unfold sample_dict.
  right. right. left.
Defined.

End RemoteConfig.

(** ** [m2g]: further properties of the calls *)
Module M2gExtras.
Import Py Ndio TextFacts M2gProps.

(** *** White space in the arguments *)

Lemma has_space_l (s b : string) : has_space s -> has_space (s +:+ b).
Proof.
  intros (s1 & s2 & ->). exists s1, (s2 +:+ b).
  rewrite !app_assoc. reflexivity.
Qed.

Lemma has_space_r (a s : string) : has_space s -> has_space (a +:+ s).
Proof.
  intros (s1 & s2 & ->). exists (a +:+ s1), s2.
  rewrite !app_assoc. reflexivity.
Qed.

(** The URL of [build_graph] with its segments in a row. *)
Lemma buildgraph_url_segments (project site subject session scan size
    email_ : string) (invariants : list string) :
  buildgraph_url project site subject session scan size email_ invariants
  = "buildgraph/" +:+ project +:+ "/" +:+ site +:+ "/" +:+ subject +:+ "/"
    +:+ session +:+ "/" +:+ scan +:+ "/" +:+ size +:+ "/" +:+ email_ +:+ "/"
    +:+ join "/" invariants +:+ "/".
Proof. unfold buildgraph_url. cbn [join]. rewrite !app_assoc. reflexivity. Qed.

Ltac find_space :=
  repeat first [ apply has_space_l; assumption | apply has_space_r ].

(** X1.  A space in the project, site, subject, session, scan, size or
    email makes [build_graph] raise [ValueError]; nothing is archived,
    sent or started. *)
Theorem build_graph_rejects_spaces (E : Env) (self : m2g)
    (project site subject session scan size email_ : string)
    (invariants : list string) (fiber_file : string)
    (atlas_file : option string) (use_threads : bool)
    (callback : option pyobject) (log : list event) :
  has_space project \/ has_space site \/ has_space subject \/
  has_space session \/ has_space scan \/ has_space size \/
  has_space email_ ->
  let out := build_graph E self project site subject session scan size
               email_ invariants fiber_file atlas_file use_threads callback
               log in
  raises ValueError (fst out) /\ snd out = log.
Proof.
  intros Hspace. cbv zeta.
  assert (has_space (buildgraph_url project site subject session scan size
                       email_ invariants)) as Hurl.
  { rewrite buildgraph_url_segments.
    destruct Hspace as [H | [H | [H | [H | [H | [H | H]]]]]]; find_space. }
  destruct (build_graph_cases E self project site subject session scan size
              email_ invariants fiber_file atlas_file use_threads callback
              log) as [[_ [msg ->]] | [Hacc _]].
  - split; reflexivity.
  - apply not_true_iff_false in Hacc. exfalso. apply Hacc, rejects_spec.
    right. right. right. exact Hurl.
Qed.

Lemma build_graph_rejects_spaces_witness :
  raises ValueError
    (fst (build_graph online sample "proj" "site" "subject 7" "sess" "scan"
            BIG "user@example.org" Invariants.ALL "fibers.dat" None true
            None [])) /\
  snd (build_graph online sample "proj" "site" "subject 7" "sess" "scan"
         BIG "user@example.org" Invariants.ALL "fibers.dat" None true None
         []) = [].
Proof.
  apply (build_graph_rejects_spaces online sample "proj" "site" "subject 7"
           "sess" "scan" BIG "user@example.org" Invariants.ALL "fibers.dat"
           None true None []).
  right. right. left. exists "subject", "7". reflexivity.
Defined.

(** *** [build_graph] in the foreground and with threads *)

(** X2.  In the foreground [build_graph] never returns and never sends a
    request: whatever the arguments, the files and the server, the call
    ends in [ValueError] with nothing archived or sent. *)
Theorem build_graph_foreground_never_returns (E : Env) (self : m2g)
    (project site subject session scan size email_ : string)
    (invariants : list string) (fiber_file : string)
    (atlas_file : option string) (callback : option pyobject)
    (log : list event) :
  exists msg,
    build_graph E self project site subject session scan size email_
      invariants fiber_file atlas_file false callback log
    = (Raise (Exn ValueError msg), log).
Proof.
  destruct (build_graph_cases E self project site subject session scan size
              email_ invariants fiber_file atlas_file false callback log)
    as [[_ [msg ->]] | [_ ->]].
  - eauto.
  - rewrite run_build_graph_raises. eauto.
Qed.

(** X3.  With threads [build_graph] either raises [ValueError] and does
    nothing, or returns [None] having started exactly one thread; the
    thread carries the files as given and a callback that is absent or a
    function of exactly one argument. *)
Theorem build_graph_threads (E : Env) (self : m2g)
    (project site subject session scan size email_ : string)
    (invariants : list string) (fiber_file : string)
    (atlas_file : option string) (callback : option pyobject)
    (log : list event) :
  let out := build_graph E self project site subject session scan size
               email_ invariants fiber_file atlas_file true callback log in
  (exists msg, out = (Raise (Exn ValueError msg), log)) \/
  (out = (Return PyNone,
          log ++ [ThreadStart
                    (TaskBuildGraph
                       (buildgraph_url project site subject session scan
                          size email_ invariants)
                       fiber_file atlas_file callback)]) /\
   forall cb, callback = Some cb -> one_argument cb).
Proof.
  cbv zeta.
  destruct (build_graph_cases E self project site subject session scan size
              email_ invariants fiber_file atlas_file true callback log)
    as [[_ [msg ->]] | [Hacc ->]]; [left; eauto | right].
  split; [reflexivity |]. intros cb ->.
  unfold rejects in Hacc. rewrite !orb_false_iff in Hacc.
  destruct Hacc as [[[_ Hcb] _] _]. cbn [callback_fails andb] in Hcb.
  apply negb_false_iff in Hcb. apply one_argument_spec, Hcb.
Qed.

Lemma check_callback_foreground (callback : option pyobject) :
  check_callback false callback = ret tt.
Proof. destruct callback; reflexivity. Qed.

(** X4.  Without threads the callback plays no part: [build_graph],
    [compute_invariants] and [convert_graph] end the same way, with the
    same effects, whatever callback they are given. *)
Theorem foreground_ignores_callback (E : Env) (self : m2g)
    (callback callback' : option pyobject) (log : list event) :
  (forall project site subject session scan size email_ invariants
          fiber_file atlas_file,
     build_graph E self project site subject session scan size email_
       invariants fiber_file atlas_file false callback log
     = build_graph E self project site subject session scan size email_
         invariants fiber_file atlas_file false callback' log) /\
  (forall graph_file input_format invariants email_,
     compute_invariants E self graph_file input_format invariants email_
       false callback log
     = compute_invariants E self graph_file input_format invariants email_
         false callback' log) /\
  (forall graph_file input_format output_formats email_,
     convert_graph E graph_file input_format output_formats email_ false
       callback log
     = convert_graph E graph_file input_format output_formats email_ false
         callback' log).
Proof.
  repeat split; intros;
    unfold build_graph, compute_invariants, convert_graph;
    rewrite !check_callback_foreground; reflexivity.
Qed.

(** *** [compute_invariants] and its upload *)

Definition upload_failed : exn :=
  Exn RemoteDataUploadError
    "Failed to upload graph file. Try troubleshooting with a ping()?".

(** The archive [_run_compute_invariants] sends: the graph file alone,
    closed. *)
Definition graph_archive (graph_file : string) : zip :=
  {| members := [graph_file]; closed := true |}.

(** A callback that is a function and returns when called with [arg]. *)
Definition returns_on (E : Env) (callback : option pyobject) (arg : cbarg)
    : Prop :=
  forall cb, callback = Some cb ->
    has_call cb = true /\ calling E cb arg = None.

Lemma archive_step (E : Env) (graph_file : string) (log : list event) :
  zippable E graph_file = true ->
  try_except
    (zfile <~ zip_write E empty_zip graph_file ;;
     ret (zip_close zfile))
    (fun _ => throw ValueError "Unable to zip graph file for upload.")
    log
  = (Return (graph_archive graph_file), log ++ [Zipped graph_file]).
Proof.
  intros Hzip. unfold try_except, bind, zip_write. rewrite Hzip. reflexivity.
Qed.

(** X5.  When the graph file can be archived and the server answers,
    [_run_compute_invariants] writes the file into the archive, sends one
    request with it to [url] of the given suffix, and returns the body of
    the answer, or, given a callback that is a function and returns when
    called with the body, calls it once with the body and returns
    [None]. *)
Theorem run_compute_invariants_uploads (E : Env) (self : m2g)
    (u graph_file : string) (callback : option pyobject) (r : response)
    (log : list event) :
  zippable E graph_file = true ->
  urlopen E (url E self u) (graph_archive graph_file) = Some r ->
  returns_on E callback (ArgBody (body r)) ->
  _run_compute_invariants E self u graph_file callback log
  = match callback with
    | None =>
        (Return (PyStr (body r)),
         log ++ [Zipped graph_file;
                 Request (url E self u) (graph_archive graph_file)])
    | Some cb =>
        (Return PyNone,
         log ++ [Zipped graph_file;
                 Request (url E self u) (graph_archive graph_file);
                 Called cb (ArgBody (body r))])
    end.
Proof.
  intros Hzip Hopen Hcb.
  unfold _run_compute_invariants.
  rewrite (bind_return _ _ _ _ _ (archive_step E graph_file log Hzip)).
  unfold try_except, bind, http_request, emit, modify.
  rewrite Hopen.
  destruct callback as [cb|].
  - destruct (Hcb cb eq_refl) as [Hfun Hret].
    destruct cb as [|args]; [discriminate |].
    unfold call, bind, emit, modify, ret. cbv beta iota.
    rewrite Hret. cbn. rewrite <- !List.app_assoc. reflexivity.
  - cbn. rewrite <- !List.app_assoc. reflexivity.
Qed.

Definition one_arg_callback : pyobject := Function ["invariants"].

Lemma run_compute_invariants_uploads_witness :
  _run_compute_invariants online sample "/graphupload/x/graphml/ss1/"
    "brain.graphml" (Some one_arg_callback) []
  = (Return PyNone,
     [Zipped "brain.graphml";
      Request
        "http://openconnecto.me/graph-services//graphupload/x/graphml/ss1/"
        (graph_archive "brain.graphml");
      Called one_arg_callback (ArgBody "done")]).
Proof.
  apply (run_compute_invariants_uploads online sample
           "/graphupload/x/graphml/ss1/" "brain.graphml"
           (Some one_arg_callback) {| body := "done" |} []).
  - reflexivity.
  - reflexivity.
  - intros cb [= <-]. split; reflexivity.
Defined.

(** X6.  The only exceptions that leave [_run_compute_invariants] are
    [ValueError] and [RemoteDataUploadError].  It raises [ValueError]
    exactly when the graph file cannot be archived, and then nothing was
    sent; once the file is archived the request is always sent, and a
    request without answer, a callback that cannot be called and a
    callback that raises when called with the body all end in
    [RemoteDataUploadError]. *)
Theorem run_compute_invariants_errors (E : Env) (self : m2g)
    (u graph_file : string) (callback : option pyobject)
    (log : list event) :
  let out := _run_compute_invariants E self u graph_file callback log in
  let answer := urlopen E (url E self u) (graph_archive graph_file) in
  (zippable E graph_file = false ->
     out = (Raise (Exn ValueError "Unable to zip graph file for upload."),
            log)) /\
  (zippable E graph_file = true ->
     ((exists v, fst out = Return v) \/ fst out = Raise upload_failed) /\
     exists tail,
       snd out = log ++ [Zipped graph_file;
                         Request (url E self u) (graph_archive graph_file)]
                     ++ tail) /\
  (zippable E graph_file = true ->
     answer = None \/
     (exists cb r,
        callback = Some cb /\ answer = Some r /\
        (has_call cb = false \/
         exists e, calling E cb (ArgBody (body r)) = Some e)) ->
     fst out = Raise upload_failed).
Proof.
  cbv zeta. unfold _run_compute_invariants.
  destruct (zippable E graph_file) eqn:Hzip.
  - rewrite (bind_return _ _ _ _ _ (archive_step E graph_file log Hzip)).
    unfold try_except, bind, http_request, emit, modify.
    split; [discriminate |].
    destruct (urlopen E (url E self u) (graph_archive graph_file)) as [r|].
    + destruct callback as [[|args]|]; unfold call, bind, emit, modify, ret;
        cbv beta iota.
      * cbn. split; [intros _; split; [right; reflexivity |] |].
        -- exists []. rewrite <- !List.app_assoc. reflexivity.
        -- reflexivity.
      * destruct (calling E (Function args) (ArgBody (body r))) as [e|] eqn:Hcall;
          cbn.
        -- split; [intros _; split; [right; reflexivity |] |].
           ++ eexists. rewrite <- !List.app_assoc. reflexivity.
           ++ reflexivity.
        -- split; [intros _; split; [left; eauto |] |].
           ++ eexists. rewrite <- !List.app_assoc. reflexivity.
           ++ intros _ [? | (cb & r' & [= <-] & [= <-] & [? | [e He]])];
                [discriminate | discriminate |].
              rewrite Hcall in He. discriminate.
      * cbn. split; [intros _; split; [left; eauto |] |].
        -- exists []. rewrite <- !List.app_assoc. reflexivity.
        -- intros _ [? | (cb & r' & ? & _)]; discriminate.
    + cbn. split; [intros _; split; [right; reflexivity |] |].
      * exists []. rewrite <- !List.app_assoc. reflexivity.
      * reflexivity.
  - split; [intros _ | split; discriminate].
    unfold try_except, bind, zip_write. rewrite Hzip. reflexivity.
Qed.

Lemma run_compute_invariants_errors_witness :
  _run_compute_invariants offline sample "/graphupload/x/graphml/ss1/"
    "brain.graphml" None []
  = (Raise (Exn ValueError "Unable to zip graph file for upload."), []).
Proof.
  apply (proj1 (run_compute_invariants_errors offline sample
                  "/graphupload/x/graphml/ss1/" "brain.graphml" None [])).
  reflexivity.
Defined.

(** X7.  In the foreground [compute_invariants] never returns and never
    sends a request: it raises [ValueError] from a check or [NameError] on
    an unbound name, and nothing is archived or sent. *)
Theorem compute_invariants_foreground_never_returns (E : Env) (self : m2g)
    (graph_file input_format : string) (invariants : list string)
    (email_ : string) (callback : option pyobject) (log : list event) :
  exists e,
    compute_invariants E self graph_file input_format invariants email_
      false callback log = (Raise e, log) /\
    (exn_cls e = ValueError \/ exn_cls e = NameError).
Proof.
  rewrite compute_invariants_raises. eexists. split; [reflexivity |].
  right. reflexivity.
Qed.

(** *** The instance *)

(** X10.  [set_default_email] accepts exactly the addresses that contain
    [@]: it then replaces the email and keeps the host and the protocol;
    any other address raises [ValueError]. *)
Theorem set_default_email_spec (self : m2g) (new_email : string) :
  ((exists s1 s2, new_email = s1 +:+ "@" +:+ s2) ->
     set_default_email self new_email
     = Return {| hostname := hostname self; protocol := protocol self;
                 email := new_email |}) /\
  (~ (exists s1 s2, new_email = s1 +:+ "@" +:+ s2) ->
     set_default_email self new_email
     = Raise (Exn ValueError "Invalid email.")).
Proof.
  unfold set_default_email.
  destruct (str_in "@" new_email) eqn:Hat; cbn [negb].
  - split; [reflexivity |]. intros Hnot. exfalso. apply Hnot.
    apply (proj1 (str_in_char "@" new_email)), Hat.
  - split; [| reflexivity]. intros Hin.
    apply (proj2 (str_in_char "@" new_email)) in Hin. congruence.
Qed.

Lemma set_default_email_spec_witness :
  set_default_email sample "admin@example.org"
  = Return {| hostname := "openconnecto.me"; protocol := "http";
              email := "admin@example.org" |}.
Proof.
  apply (proj1 (set_default_email_spec sample "admin@example.org")).
  exists "admin", "example.org". reflexivity.
Defined.



(** *** When [build_graph] accepts a call *)

Lemma str_in_char_app (c : ascii) (a b : string) :
  str_in (String c "") (a +:+ b)
  = str_in (String c "") a || str_in (String c "") b.
Proof.
  induction a as [|x a IH].
  - reflexivity.
  - rewrite app_cons. cbn [str_in String.prefix]. rewrite IH.
    destruct (ascii_dec c x); [| reflexivity].
    assert (forall s, String.prefix "" s = true) as Hnil
      by (intros [|? ?]; reflexivity).
    rewrite !Hnil. reflexivity.
Qed.

Lemma has_space_spec (s : string) : str_in " " s = true <-> has_space s.
Proof. apply (str_in_char " " s). Qed.

Lemma no_space_spec (s : string) : str_in " " s = false <-> ~ has_space s.
Proof. rewrite <- has_space_spec. symmetry. apply not_true_iff_false. Qed.

(** The names of the invariants hold no space, and neither does a list of
    them joined by [/]. *)
Lemma invariants_no_space (invariants : list string) :
  invariants ⊆ Invariants.ALL -> str_in " " (join "/" invariants) = false.
Proof.
  induction invariants as [|i invariants IH]; intros Hsub; [reflexivity |].
  assert (str_in " " i = false) as Hi.
  { assert (i ∈ Invariants.ALL) as Hin by (apply Hsub; left).
    unfold Invariants.ALL in Hin.
    repeat (apply elem_of_cons in Hin as [-> | Hin]; [reflexivity |]).
    apply elem_of_nil in Hin. contradiction. }
  assert (invariants ⊆ Invariants.ALL) as Hrest
    by (intros x Hx; apply Hsub; right; exact Hx).
  destruct invariants as [|j invariants]; [exact Hi |].
  change (join "/" (i :: j :: invariants))
    with (i +:+ "/" +:+ join "/" (j :: invariants)).
  rewrite !str_in_char_app, Hi, (IH Hrest). reflexivity.
Qed.

(** X14.  With threads, [build_graph] returns (and then returns [None],
    the thread started) exactly when the invariants are among
    [Invariants.ALL], the size is [BIG] or [SMALL], the callback is absent
    or a function of exactly one argument, and none of project, site,
    subject, session, scan and email holds a space. *)
Theorem build_graph_threads_accepts (E : Env) (self : m2g)
    (project site subject session scan size email_ : string)
    (invariants : list string) (fiber_file : string)
    (atlas_file : option string) (callback : option pyobject)
    (log : list event) :
  fst (build_graph E self project site subject session scan size email_
         invariants fiber_file atlas_file true callback log) = Return PyNone
  <->
  invariants ⊆ Invariants.ALL /\
  (size = BIG \/ size = SMALL) /\
  (forall cb, callback = Some cb -> one_argument cb) /\
  ~ has_space project /\ ~ has_space site /\ ~ has_space subject /\
  ~ has_space session /\ ~ has_space scan /\ ~ has_space email_.
Proof.
  assert (rejects project site subject session scan size email_ invariants
            true callback = false
          <-> fst (build_graph E self project site subject session scan size
                     email_ invariants fiber_file atlas_file true callback
                     log) = Return PyNone) as <-.
  { destruct (build_graph_cases E self project site subject session scan
                size email_ invariants fiber_file atlas_file true callback
                log) as [[Hrej [msg ->]] | [Hacc ->]]; cbn [fst].
    - rewrite Hrej. split; discriminate.
    - rewrite Hacc. split; reflexivity. }
  unfold rejects. rewrite !orb_false_iff, !negb_false_iff.
  rewrite subset_spec, mem_spec, buildgraph_url_segments.
  assert (callback_fails true callback = false
          <-> forall cb, callback = Some cb -> one_argument cb) as ->.
  { destruct callback as [cb|]; cbn [callback_fails andb].
    - rewrite negb_false_iff, one_argument_spec. split.
      + intros Hcb ? [= <-]. exact Hcb.
      + intros Hcb. apply Hcb. reflexivity.
    - split; [intros _ ? [=] | reflexivity]. }
  assert (size ∈ [BIG; SMALL] <-> size = BIG \/ size = SMALL) as ->.
  { rewrite !elem_of_cons, elem_of_nil. tauto. }
  rewrite !str_in_char_app, !orb_false_iff, <- !no_space_spec.
  split.
  - intros [[[Hinv Hcb] Hsize]
             (_ & Hp & _ & Hs & _ & Hsub & _ & Hses & _ & Hscan & _ & _ & _
              & Hem & _)].
    tauto.
  - intros (Hinv & Hsize & Hcb & Hp & Hs & Hsub & Hses & Hscan & Hem).
    split; [tauto |].
    assert (str_in " " size = false) as Hsz
      by (destruct Hsize as [-> | ->]; reflexivity).
    pose proof (invariants_no_space invariants Hinv) as Hjoin.
    repeat split; try assumption; reflexivity.
Qed.

Lemma build_graph_threads_accepts_witness :
  fst (build_graph online sample "proj" "site" "subj" "sess" "scan" BIG
         "user@example.org" ["ss1"; "tri"] "fibers.dat" None true None [])
  = Return PyNone.
Proof.
  apply (proj2 (build_graph_threads_accepts online sample "proj" "site"
                  "subj" "sess" "scan" BIG "user@example.org" ["ss1"; "tri"]
                  "fibers.dat" None None [])).
  split; [apply subset_spec; vm_compute; reflexivity |].
  split; [left; reflexivity |].
  split; [intros cb [=] |].
  repeat split; apply no_space_spec; reflexivity.
Defined.


(** X15.  The thread that [build_graph] starts never sends a request and
    never calls the callback: whenever the call with threads returned, it
    started one thread, and the run of that thread ends in [ValueError]
    with nothing archived or sent. *)
Theorem build_graph_thread_never_uploads (E : Env) (self : m2g)
    (project site subject session scan size email_ : string)
    (invariants : list string) (fiber_file : string)
    (atlas_file : option string) (callback : option pyobject)
    (log log1 : list event) :
  build_graph E self project site subject session scan size email_
    invariants fiber_file atlas_file true callback log
    = (Return PyNone, log1) ->
  exists t,
    log1 = log ++ [ThreadStart t] /\
    forall log2, exists msg,
      run_task E self t log2 = (Raise (Exn ValueError msg), log2).
Proof.
  intros Hcall.
  destruct (build_graph_cases E self project site subject session scan size
              email_ invariants fiber_file atlas_file true callback log)
    as [[_ [msg Hout]] | [_ Hout]]; rewrite Hout in Hcall;
    [discriminate |].
  injection Hcall as <-. eexists. split; [reflexivity |].
  intros log2. cbn [run_task]. rewrite run_build_graph_raises. eauto.
Qed.

Lemma build_graph_thread_never_uploads_witness :
  exists t,
    [ThreadStart
       (TaskBuildGraph
          "buildgraph/proj/site/subj/sess/scan/b/user@example.org/ss1/tri/"
          "fibers.dat" None (Some one_arg_callback))]
    = [] ++ [ThreadStart t] /\
    forall log2, exists msg,
      run_task online sample t log2 = (Raise (Exn ValueError msg), log2).
Proof.
  apply (build_graph_thread_never_uploads online sample "proj" "site" "subj"
           "sess" "scan" BIG "user@example.org" ["ss1"; "tri"] "fibers.dat"
           None (Some one_arg_callback) []).
  vm_compute. reflexivity.
Defined.

(** X16.  [convert_graph] never returns and has no effect: whatever the
    arguments, the files and the server, it raises [ValueError] or
    [NameError], and nothing is archived, sent or started. *)
Theorem convert_graph_always_raises (E : Env)
    (graph_file input_format : string) (output_formats : list string)
    (email_ : option string) (use_threads : bool)
    (callback : option pyobject) (log : list event) :
  exists e,
    convert_graph E graph_file input_format output_formats email_
      use_threads callback log = (Raise e, log) /\
    (exn_cls e = ValueError \/ exn_cls e = NameError).
Proof. apply convert_graph_never_returns. Qed.

(** X17.  For an instance whose host, protocol and email hold no single
    quote, backslash, line end or null character, [eval] of the text of
    [__repr__] gives the instance back. *)
Theorem repr_eval_round_trip (x : m2g) :
  plain (hostname x) = true -> plain (protocol x) = true ->
  plain (email x) = true ->
  exists text, repr x = Return text /\ eval text = Some x.
Proof. apply repr_eval_plain. Qed.

Lemma repr_eval_round_trip_witness :
  exists text, repr sample = Return text /\ eval text = Some sample.
Proof.
  apply (repr_eval_round_trip sample); reflexivity.
Defined.

End M2gExtras.

(** ** [Remote]: further properties of the constructor *)
Module RemoteExtras.
Import Py ConfigParser Intern TextFacts ConfigFacts RemoteConfig.

Section Fresh.
Context {R : Type} `{Resource R} {Store Value Data Service : Type}.

Abbreviation Remote := (Intern.Remote R Store Value Data Service).

(** Whatever it is given, the constructor ends on the blank object with
    at most [_config] set. *)
Lemma init_state (env : Env) (arg : option cfg_arg) (r0 : Remote) :
  exists c, snd (init env arg r0) = set_config c blank.
Proof.
  assert (forall path, exists c,
            snd (init env (Some (CfgPath path)) r0) = set_config c blank)
    as Hpath.
  { intros path. rewrite init_path.
    destruct (files env !! path) as [text|]; [| exists None; reflexivity].
    destruct (readfp text); [eexists (Some _) | exists None]; reflexivity. }
  destruct arg as [[d | path]|].
  - rewrite init_dict.
    destruct (readfp _); [eexists (Some _) | exists None]; reflexivity.
  - apply Hpath.
  - apply (Hpath (expanduser env CONFIG_FILE)).
Qed.

(** X11.  The constructor of the base class sets no service and no token,
    whether it returns or raises; so on the object it leaves,
    [list_project], [get_cutout] and [create_cutout] raise, with
    [AttributeError] or, for an invalid resource, [RuntimeError], and no
    call reaches a service. *)
Theorem fresh_remote_has_no_services (env : Env) (arg : option cfg_arg)
    (r0 : Remote) (st : Store) (cs : list (call R Value Data)) :
  let r := snd (init env arg r0) in
  let h := {| self := r; store := st; calls := cs |} in
  (_volume r = None /\ _metadata r = None /\ _project r = None /\
   _object r = None /\ _token_project r = None /\
   _token_metadata r = None /\ _token_volume r = None /\
   _token_object r = None) /\
  (forall kwargs,
     exists e, list_project kwargs h = (Raise e, h) /\
               exn_cls e = AttributeError) /\
  (forall resource resolution x_range y_range z_range time_range,
     exists e,
       get_cutout resource resolution x_range y_range z_range time_range h
         = (Raise e, h) /\
       exn_cls e = if valid_volume resource then AttributeError
                   else RuntimeError) /\
  (forall resource resolution x_range y_range z_range data time_range,
     exists e,
       create_cutout resource resolution x_range y_range z_range data
         time_range h = (Raise e, h) /\
       exn_cls e = if valid_volume resource then AttributeError
                   else RuntimeError).
Proof.
  cbv zeta. destruct (init_state env arg r0) as [c ->].
  split; [repeat split |]. split; [| split].
  - intros kwargs. eexists. split; reflexivity.
  - intros resource resolution x_range y_range z_range time_range.
    unfold get_cutout. destruct (valid_volume resource);
      eexists; split; reflexivity.
  - intros resource resolution x_range y_range z_range data time_range.
    unfold create_cutout. destruct (valid_volume resource);
      eexists; split; reflexivity.
Qed.

(** X12.  Given a dict the constructor reads no file and keeps nothing of
    the object it starts from: the outcome is the same on every file
    system and from every prior state. *)
Theorem init_dict_reads_no_file (env env' : Env) (r0 r0' : Remote)
    (d : list (string * pyval)) :
  init env (Some (CfgDict d)) r0 = init env' (Some (CfgDict d)) r0'.
Proof. rewrite !init_dict. reflexivity. Qed.

(** X13.  For a clean dict the section [Default] of the parser holds
    exactly the entries of the dict, under names that are compared in
    lower case: a name equal to a key up to letter case gives the value of
    that key, a name that matches no key (the reader's own [__name__]
    apart) gives nothing, and no other section has any option. *)
Theorem init_dict_lookup (env : Env) (r0 : Remote)
    (d : list (string * pyval)) :
  clean_dict d -> NoDup (lower <$> d.*1) ->
  exists cfg,
    init env (Some (CfgDict d)) r0
      = (Return tt, set_config (Some cfg) blank) /\
    (forall k v name,
       (k, v) ∈ d -> lower name = lower k ->
       get_raw cfg "Default" name = Some (str v)) /\
    (forall name,
       lower name ∉ lower <$> d.*1 -> lower name <> "__name__" ->
       get_raw cfg "Default" name = None) /\
    (forall section name,
       section <> "Default" -> get_raw cfg section name = None).
Proof.
  intros Hclean Hnodup. rewrite init_dict, (readfp_dict d Hclean).
  eexists. split; [reflexivity |]. split; [| split].
  - intros k v name Hin Hname. unfold get_raw. cbn [_sections _defaults].
    rewrite lookup_singleton_eq. unfold join_values, optionxform.
    rewrite lookup_fmap, Hname, (read_into_lookup _ _ _ _ Hnodup Hin).
    reflexivity.
  - intros name Hfresh Hname. unfold get_raw. cbn [_sections _defaults].
    rewrite lookup_singleton_eq. unfold join_values, optionxform.
    rewrite lookup_fmap, (read_into_other _ _ _ Hfresh).
    rewrite lookup_singleton_ne by congruence.
    cbn. apply lookup_empty.
  - intros section name Hsection. unfold get_raw. cbn [_sections _defaults].
    rewrite lookup_singleton_ne by congruence.
    destruct (String.eqb section DEFAULTSECT); [apply lookup_empty | reflexivity].
Qed.

End Fresh.

Lemma init_dict_lookup_witness :
  exists cfg,
    @init unit unit unit unit unit sample_env (Some (CfgDict sample_dict))
      blank
      = (Return tt, set_config (Some cfg) blank) /\
    get_raw cfg "Default" "PROTOCOL" = Some "https" /\
    get_raw cfg "Default" "token" = None.
Proof.
  destruct (@init_dict_lookup unit unit unit unit unit sample_env blank
              sample_dict sample_dict_clean sample_dict_nodup)
    as (cfg & Hinit & Hhit & Hmiss & _).
  exists cfg. split; [exact Hinit |]. split.
  - apply (Hhit "protocol" (PyStr "https") "PROTOCOL"); [left | reflexivity].
  - apply (Hmiss "token"); [| discriminate].
    apply (bool_decide_unpack _). vm_compute. exact I.
Defined.

End RemoteExtras.
